(** * The calculator client (src/client/calculator.ts)

    A shallow embedding of the TypeScript client of the Solana calculator
    program: the two wire codecs (the request layout built with
    [@solana/buffer-layout] and the account state schema handled by [borsh]),
    the module-level globals, and the five exported asynchronous functions
    run against an explicit model of the cluster.

    Conventions.
    - A [Buffer] is a list of bytes, each byte an integer in [0, 256).
    - JavaScript numbers are modelled by [Z]: the development covers the
      integer values of operands and balances. What the encoder does with a
      number that is not an integer (a fraction, [NaN], an infinity) is
      outside the model, and every statement about operands is a statement
      about integer operands.
    - A JavaScript object used as a bag of named numeric fields is a
      [gmap string Z].
    - An [async] function is a computation in the monad [M]: it threads the
      machine state (module globals, cluster accounts, trace of external
      interactions) and either returns or throws. *)

From Stdlib Require Import ZArith Lia.
From stdpp Require Import base decidable option list strings gmap pretty.

Local Open Scope Z_scope.

(** ** Exceptions *)

Inductive Error : Type :=
| TypeError (msg : string)      (* thrown by the JavaScript runtime *)
| RangeError (msg : string)     (* thrown by Buffer accessors *)
| BorshError (msg : string)     (* thrown by the borsh library *)
| ThrownString (msg : string)   (* [throw "..."] *)
| PlainError (msg : string)     (* [throw new Error(...)] *)
| ExternalError (msg : string). (* rejection coming from a collaborator *)

Inductive Result (A : Type) : Type :=
| Ok (a : A)
| Throw (e : Error).
Arguments Ok {A} a.
Arguments Throw {A} e.

(** ** Node's Buffer *)

Module Buffer.

Definition t := list Z.

(** [Buffer.alloc(size)]: zero-filled. *)
Definition alloc (size : nat) : t := replicate size 0.

(** The bytes stored by the [writeUIntLE] family, least significant first:
    [buf[offset++] = value; value = value >>> 8; ...]. *)
Fixpoint le_bytes (byteLength : nat) (value : Z) : list Z :=
  match byteLength with
  | O => []
  | S k => Z.land value 255 :: le_bytes k (Z.shiftr value 8)
  end.

(** The number read by the [readUIntLE] family:
    [first + this[++offset] * 2 ** 8 + ...]. *)
Fixpoint le_value (bytes : list Z) : Z :=
  match bytes with
  | [] => 0
  | b :: rest => b + 2 ^ 8 * le_value rest
  end.

(** [buf.writeUIntLE(value, offset, byteLength)]: the value is checked
    against [0, 2^(8*byteLength) - 1] first, then the bounds. *)
Definition writeUIntLE (value : Z) (offset byteLength : nat) (buf : t) : Result t :=
  if decide (0 <= value <= 2 ^ (8 * Z.of_nat byteLength) - 1) then
    if decide (offset + byteLength <= length buf)%nat then
      Ok (list_inserts offset (le_bytes byteLength value) buf)
    else Throw (RangeError "ERR_BUFFER_OUT_OF_BOUNDS")
  else Throw (RangeError "ERR_OUT_OF_RANGE").

(** [buf.readUIntLE(offset, byteLength)]. *)
Definition readUIntLE (offset byteLength : nat) (buf : t) : Result Z :=
  if decide (offset + byteLength <= length buf)%nat then
    Ok (le_value (take byteLength (drop offset buf)))
  else Throw (RangeError "ERR_OUT_OF_RANGE").

(** Every element is a byte. *)
Definition wf (buf : t) : Prop := Forall (fun b => 0 <= b < 256) buf.

End Buffer.

(** ** @solana/buffer-layout: unsigned little-endian fields in a struct *)

Module BufferLayout.

(** [UInt]: a little-endian unsigned integer of [span] bytes stored under
    [property]. *)
Record UInt : Type := { span : nat; property : string }.

Definition u8 (property : string) : UInt := {| span := 1; property := property |}.
Definition u32 (property : string) : UInt := {| span := 4; property := property |}.

(** [Structure]: the fields in order; its span is the sum of theirs. *)
Record Structure : Type := struct { fields : list UInt }.

Definition Structure_span (layout : Structure) : nat :=
  foldr (fun fd acc => (span fd + acc)%nat) 0%nat (fields layout).

Definition UInt_encode (fd : UInt) (src : Z) (b : Buffer.t) (offset : nat) : Result Buffer.t :=
  Buffer.writeUIntLE src offset (span fd) b.

Definition UInt_decode (fd : UInt) (b : Buffer.t) (offset : nat) : Result Z :=
  Buffer.readUIntLE offset (span fd) b.

(** [Structure.encode(src, b, offset)]: each field whose property is
    defined in [src] is written at the running offset; the offset advances
    by the field's span either way. *)
Fixpoint encode_fields (fds : list UInt) (src : gmap string Z) (b : Buffer.t)
    (offset : nat) : Result Buffer.t :=
  match fds with
  | [] => Ok b
  | fd :: rest =>
      match src !! property fd with
      | None => encode_fields rest src b (offset + span fd)
      | Some fv =>
          match UInt_encode fd fv b offset with
          | Ok b' => encode_fields rest src b' (offset + span fd)
          | Throw e => Throw e
          end
      end
  end.

Definition encode (layout : Structure) (src : gmap string Z) (b : Buffer.t)
    (offset : nat) : Result Buffer.t :=
  encode_fields (fields layout) src b offset.

(** [Structure.decode(b, offset)]: a fresh object receiving each field read
    at the running offset. *)
Fixpoint decode_fields (fds : list UInt) (b : Buffer.t) (offset : nat)
    (dest : gmap string Z) : Result (gmap string Z) :=
  match fds with
  | [] => Ok dest
  | fd :: rest =>
      match UInt_decode fd b offset with
      | Ok v => decode_fields rest b (offset + span fd) (<[property fd := v]> dest)
      | Throw e => Throw e
      end
  end.

Definition decode (layout : Structure) (b : Buffer.t) (offset : nat) : Result (gmap string Z) :=
  decode_fields (fields layout) b offset ∅.

End BufferLayout.

(** ** borsh: struct schemas over unsigned integer fields *)

Module borsh.

Inductive FieldType : Type := U8 | U16 | U32.

Definition width (ty : FieldType) : nat :=
  match ty with U8 => 1%nat | U16 => 2%nat | U32 => 4%nat end.

(** The schema entry of a class: [{ kind: "struct", fields: [[name, type], ...] }]. *)
Record Schema : Type := { kind : string; fields : list (string * FieldType) }.

(** What the library needs of a class: reading a field of an instance
    ([obj[fieldName]]) and building an instance from the decoded field
    object ([new classType(result)]). *)
Record ClassType (T : Type) : Type := {
  get_field : T -> string -> option Z;
  construct : gmap string Z -> T
}.
Arguments get_field {T} _ _ _.
Arguments construct {T} _ _.

(** [BinaryWriter]: the bytes written so far; [writeU8/16/32] append the
    little-endian bytes of the value, through the Buffer accessor and its
    range check. *)
Definition write (ty : FieldType) (value : Z) (writer : list Z) : Result (list Z) :=
  Buffer.writeUIntLE value (length writer) (width ty)
    (writer ++ Buffer.alloc (width ty)).

Fixpoint serializeStruct {T} (cls : ClassType T) (fds : list (string * FieldType))
    (obj : T) (writer : list Z) : Result (list Z) :=
  match fds with
  | [] => Ok writer
  | (fieldName, fieldType) :: rest =>
      match get_field cls obj fieldName with
      | None => Throw (TypeError "ERR_INVALID_ARG_TYPE")
      | Some value =>
          match write fieldType value writer with
          | Ok writer' => serializeStruct cls rest obj writer'
          | Throw e => Throw e
          end
      end
  end.

(** [borsh.serialize(schema, obj)]. *)
Definition serialize {T} (schema : Schema) (cls : ClassType T) (obj : T) : Result (list Z) :=
  if String.eqb (kind schema) "struct" then
    serializeStruct cls (fields schema) obj []
  else Throw (BorshError "Unexpected schema kind").

(** [BinaryReader]: a buffer and a running offset; a read past the end is
    reported as a [BorshError]. *)
Definition read (ty : FieldType) (buf : list Z) (offset : nat) : Result (Z * nat) :=
  match Buffer.readUIntLE offset (width ty) buf with
  | Ok value => Ok (value, (offset + width ty)%nat)
  | Throw _ => Throw (BorshError "Reached the end of buffer when deserializing")
  end.

Fixpoint deserializeStruct (fds : list (string * FieldType)) (buf : list Z)
    (offset : nat) (result : gmap string Z) : Result (gmap string Z * nat) :=
  match fds with
  | [] => Ok (result, offset)
  | (fieldName, fieldType) :: rest =>
      match read fieldType buf offset with
      | Ok (value, offset') =>
          deserializeStruct rest buf offset' (<[fieldName := value]> result)
      | Throw e => Throw e
      end
  end.

(** [borsh.deserialize(schema, classType, buffer)]: bytes left over after
    the struct are an error. *)
Definition deserialize {T} (schema : Schema) (cls : ClassType T) (buffer : list Z) : Result T :=
  if String.eqb (kind schema) "struct" then
    match deserializeStruct (fields schema) buffer 0 ∅ with
    | Ok (result, offset) =>
        if decide (offset < length buffer)%nat then
          Throw (BorshError ("Unexpected " +:+ pretty (length buffer - offset)%nat
                             +:+ " bytes after deserialized data"))
        else Ok (construct cls result)
    | Throw e => Throw e
    end
  else Throw (BorshError "Unexpected schema kind").

End borsh.

(** ** The calculator account state *)

(** [class Calculator { result = 0; constructor(fields) {...} }]. *)
Record Calculator : Type := { result : Z }.

(** The constructor: the initial value [0] is overwritten by [fields.result]
    when a field object is passed. TypeScript types [fields.result] as a
    number; a field object without the property is not a value of that type,
    and the model leaves the initial value in place there. *)
Definition new_Calculator (fields : option (gmap string Z)) : Calculator :=
  match fields with
  | Some f => {| result := default 0 (f !! "result"%string) |}
  | None => {| result := 0 |}
  end.

Definition Calculator_class : borsh.ClassType Calculator :=
  {| borsh.get_field := fun c name =>
       if String.eqb name "result" then Some (result c) else None;
     borsh.construct := fun f => new_Calculator (Some f) |}.

(** [CalculatorSchema]: the entry of the class [Calculator]. *)
Definition CalculatorSchema : borsh.Schema :=
  {| borsh.kind := "struct"; borsh.fields := [("result"%string, borsh.U32)] |}.

(** The state codec, as the client calls it:
    [borsh.serialize(CalculatorSchema, c)] and
    [borsh.deserialize(CalculatorSchema, Calculator, buffer)]. *)
Definition encodeState (c : Calculator) : Result Buffer.t :=
  borsh.serialize CalculatorSchema Calculator_class c.

Definition decodeState (buffer : Buffer.t) : Result Calculator :=
  borsh.deserialize CalculatorSchema Calculator_class buffer.

(** [CALCULATOR_SIZE = borsh.serialize(CalculatorSchema, new Calculator()).length].
    The serialisation of the zero-valued state does not throw (see
    [encodeState_bytes]); the second branch is never taken. *)
Definition CALCULATOR_SIZE : nat :=
  match encodeState (new_Calculator None) with
  | Ok bytes => length bytes
  | Throw _ => 0%nat
  end.

(** ** The request encoder *)

(** The [layout] constant of [createInstruction]: the [Settings] struct. *)
Definition Settings_layout : BufferLayout.Structure :=
  BufferLayout.struct
    [BufferLayout.u8 "instruction"; BufferLayout.u32 "num1"; BufferLayout.u32 "num2"].

(** The object literal [{ instruction, num1, num2 }]. *)
Definition Settings (instruction num1 num2 : Z) : gmap string Z :=
  <["instruction"%string := instruction]>
    (<["num1"%string := num1]> (<["num2"%string := num2]> ∅)).

(** The opcode byte: [operation === "add" ? 0 : 1]. *)
Definition opcode (operation : string) : Z :=
  if String.eqb operation "add" then 0 else 1.

(** [createInstruction(operation, num1, num2)]. *)
Definition createInstruction (operation : string) (num1 num2 : Z) : Result Buffer.t :=
  let layout := Settings_layout in
  let data := Buffer.alloc (BufferLayout.Structure_span layout) in
  BufferLayout.encode layout
    (Settings (opcode operation) num1 num2) data 0.

(** ** Keys, accounts, transactions *)

(** A public key is its byte string. *)
Abbreviation PublicKey := (list Z) (only parsing).

Record Keypair : Type := { publicKey : PublicKey }.

Record AccountInfo : Type := {
  data : Buffer.t;
  owner : PublicKey;
  lamports : Z;
  executable : bool
}.

Record AccountMeta : Type := {
  pubkey : PublicKey;
  isSigner : bool;
  isWritable : bool
}.

(** The values a handler found under [instructionMap[operation]] can
    return: a Buffer for the two handlers of the table, and what the
    functions inherited from [Object.prototype] return. *)
Inductive Value : Type :=
| VBuffer (b : Buffer.t)
| VFalse
| VString (s : string)
| VNumberObject (n : Z).

Inductive Instruction : Type :=
| CreateAccountWithSeed (fromPubkey basePubkey : PublicKey) (seed : string)
    (newAccountPubkey : PublicKey) (lamports : Z) (space : nat) (programId : PublicKey)
| TransactionInstruction (keys : list AccountMeta) (programId : PublicKey) (data : Value).

(** [new Transaction().add(i1, ...)]. *)
Abbreviation Transaction := (list Instruction) (only parsing).

(** ** Console output and the trace of external interactions *)

Inductive Text : Type :=
| Str (s : string)
| Num (n : Z)
| Base58 (key : PublicKey)          (* [key.toBase58()] *)
| Cat (a b : Text)                  (* concatenation inside a template string *)
| Yellow (a : Text).                (* [chalk.yellow(...)], arguments joined *)

Inductive Event : Type :=
| EvLog (args : list Text)
| EvGetRpcUrl
| EvGetVersion
| EvGetRecentBlockhash
| EvGetMinimumBalanceForRentExemption (size : nat)
| EvGetPayer
| EvGetBalance (key : PublicKey)
| EvRequestAirdrop (key : PublicKey) (amount : Z)
| EvConfirmTransaction
| EvCreateKeypairFromFile (path : string)
| EvExistsSync (path : string)
| EvGetAccountInfo (key : PublicKey)
| EvSendAndConfirmTransaction (transaction : Transaction) (signers : list Keypair).

(** ** The environment of the client

    Everything the client obtains from its collaborators: the helper module
    [./utils], the file system, the RPC node and the cluster behind it. *)

Record Connection : Type := { rpcUrl : string; commitment : string }.

Record Env : Type := {
  (* ./utils *)
  getRpcUrl : Result string;
  getPayer : Result Keypair;
  createKeypairFromFile : string -> Result Keypair;
  (* path.resolve(__dirname, "../../dist/program") and the file system *)
  PROGRAM_PATH : string;
  existsSync : string -> bool;
  (* the endpoint validation of [new Connection(endpoint, ...)] *)
  endpoint_accepted : string -> bool;
  (* the RPC node *)
  getVersion : Result string;
  lamportsPerSignature : Z;
  getMinimumBalanceForRentExemption : nat -> Z;
  (* the faucet: a rejected request, or the lamports credited by the time
     the airdrop transaction is confirmed (none when it failed) *)
  airdrop : PublicKey -> Z -> Result Z;
  (* [PublicKey.createWithSeed] *)
  createWithSeed : PublicKey -> string -> PublicKey -> PublicKey;
  (* a submission the cluster or the transport turns down *)
  rejects : Transaction -> bool;
  (* the effect of an instruction of a deployed program on the accounts *)
  invoke : PublicKey -> list AccountMeta -> Buffer.t ->
           gmap PublicKey AccountInfo -> Result (gmap PublicKey AccountInfo)
}.

(** ** The machine state: module globals, cluster accounts, trace *)

Record Machine : Type := {
  connection : option Connection;
  payer : option Keypair;
  programId : option PublicKey;
  calculatorPubKey : option PublicKey;
  accounts : gmap PublicKey AccountInfo;
  trace : list Event
}.

Definition set_connection (c : Connection) (m : Machine) : Machine :=
  {| connection := Some c; payer := payer m; programId := programId m;
     calculatorPubKey := calculatorPubKey m; accounts := accounts m; trace := trace m |}.

Definition set_payer (k : Keypair) (m : Machine) : Machine :=
  {| connection := connection m; payer := Some k; programId := programId m;
     calculatorPubKey := calculatorPubKey m; accounts := accounts m; trace := trace m |}.

Definition set_programId (k : PublicKey) (m : Machine) : Machine :=
  {| connection := connection m; payer := payer m; programId := Some k;
     calculatorPubKey := calculatorPubKey m; accounts := accounts m; trace := trace m |}.

Definition set_calculatorPubKey (k : PublicKey) (m : Machine) : Machine :=
  {| connection := connection m; payer := payer m; programId := programId m;
     calculatorPubKey := Some k; accounts := accounts m; trace := trace m |}.

Definition set_accounts (a : gmap PublicKey AccountInfo) (m : Machine) : Machine :=
  {| connection := connection m; payer := payer m; programId := programId m;
     calculatorPubKey := calculatorPubKey m; accounts := a; trace := trace m |}.

Definition record (e : Event) (m : Machine) : Machine :=
  {| connection := connection m; payer := payer m; programId := programId m;
     calculatorPubKey := calculatorPubKey m; accounts := accounts m;
     trace := trace m ++ [e] |}.

(** ** The monad of asynchronous functions *)

Definition M (A : Type) : Type := Machine -> Result A * Machine.

Definition ret {A} (a : A) : M A := fun m => (Ok a, m).

Definition bind {A B} (c : M A) (k : A -> M B) : M B :=
  fun m =>
    match c m with
    | (Ok a, m') => k a m'
    | (Throw e, m') => (Throw e, m')
    end.

Definition throw {A} (e : Error) : M A := fun m => (Throw e, m).

Definition lift {A} (r : Result A) : M A := fun m => (r, m).

Definition gets {A} (f : Machine -> A) : M A := fun m => (Ok (f m), m).

Definition modify (f : Machine -> Machine) : M unit := fun m => (Ok tt, f m).

Definition emit (e : Event) : M unit := modify (record e).

(** [try { c } catch (err) { h(err) }]. *)
Definition try_catch {A} (c : M A) (h : Error -> M A) : M A :=
  fun m =>
    match c m with
    | (Ok a, m') => (Ok a, m')
    | (Throw e, m') => h e m'
    end.

Declare Scope async_scope.
Delimit Scope async_scope with async.
Notation "x <- c ;; k" := (bind c (fun x => k))
  (at level 100, c at next level, right associativity) : async_scope.
Notation "c ;;; k" := (bind c (fun _ => k))
  (at level 100, right associativity) : async_scope.
Local Open Scope async_scope.

(** Reading a property of a global that may still be [undefined]. *)
Definition defined {A} (name : string) (f : Machine -> option A) : M A :=
  fun m =>
    match f m with
    | Some a => (Ok a, m)
    | None => (Throw (TypeError ("Cannot read properties of undefined: " +:+ name)), m)
    end.

(** [(err as Error).message]. *)
Definition message (e : Error) : string :=
  match e with
  | TypeError s | RangeError s | BorshError s | ThrownString s
  | PlainError s | ExternalError s => s
  end.

Definition console_log (args : list Text) : M unit := emit (EvLog args).

(** ** The property lookup [instructionMap[operation]] *)

(** The own properties of the object literal [instructionMap]. *)
Definition instructionMap : gmap string (Z -> Z -> Result Buffer.t) :=
  <["add"%string := fun num1 num2 => createInstruction "add" num1 num2]>
    (<["sub"%string := fun num1 num2 => createInstruction "sub" num1 num2]> ∅).

(** An object literal inherits from [Object.prototype]: these are the
    function-valued properties a lookup finds there when the object has no
    own property of that name. *)
Definition Object_prototype_functions : list string :=
  ["constructor"; "__defineGetter__"; "__defineSetter__"; "hasOwnProperty";
   "__lookupGetter__"; "__lookupSetter__"; "isPrototypeOf";
   "propertyIsEnumerable"; "toString"; "valueOf"; "toLocaleString"]%string.

(** The outcome of [obj[key]] on an object literal whose own properties are
    handlers. *)
Inductive Property : Type :=
| Own (handler : Z -> Z -> Result Buffer.t)
| Inherited (name : string)   (* a function of [Object.prototype] *)
| Prototype                   (* [__proto__]: the prototype object itself *)
| Undefined.

Definition get_property (obj : gmap string (Z -> Z -> Result Buffer.t)) (key : string) : Property :=
  match obj !! key with
  | Some handler => Own handler
  | None =>
      if bool_decide (key ∈ Object_prototype_functions) then Inherited key
      else if String.eqb key "__proto__" then Prototype
      else Undefined
  end.

(** The call [instructionHandler(num1, num2)], with [this] undefined.
    Of the inherited functions, [Object] boxes its first argument,
    [toString] names the undefined receiver, [isPrototypeOf] answers [false]
    for a primitive argument; the others convert the receiver to an object
    first and throw. Calling a non-function throws. *)
Definition call (handler : Property) (num1 num2 : Z) : Result Value :=
  match handler with
  | Own f =>
      match f num1 num2 with
      | Ok b => Ok (VBuffer b)
      | Throw e => Throw e
      end
  | Inherited name =>
      if String.eqb name "constructor" then Ok (VNumberObject num1)
      else if String.eqb name "toString" then Ok (VString "[object Undefined]")
      else if String.eqb name "isPrototypeOf" then Ok VFalse
      else Throw (TypeError "Cannot convert undefined or null to object")
  | Prototype | Undefined => Throw (TypeError "instructionHandler is not a function")
  end.

(** [new TransactionInstruction({ keys, programId, data })]: the [data]
    field starts as an empty Buffer and is replaced only by a truthy
    [opts.data]. *)
Definition new_TransactionInstruction (keys : list AccountMeta) (programId : PublicKey)
    (data : Value) : Instruction :=
  TransactionInstruction keys programId
    match data with
    | VFalse => VBuffer (Buffer.alloc 0)
    | v => v
    end.

(** ** The cluster *)

(** The system program's identity: thirty-two zero bytes. *)
Definition SystemProgram_programId : PublicKey := replicate 32 0.

Definition LAMPORTS_PER_SOL : Z := 1000000000.

Definition balance (accs : gmap PublicKey AccountInfo) (key : PublicKey) : Z :=
  match accs !! key with
  | Some info => lamports info
  | None => 0
  end.

(** Lamports arriving at an address: added to the account there, or a new
    data-less system account. *)
Definition credit (key : PublicKey) (amount : Z) (accs : gmap PublicKey AccountInfo)
    : gmap PublicKey AccountInfo :=
  match accs !! key with
  | Some info =>
      <[key := {| data := data info; owner := owner info;
                  lamports := lamports info + amount;
                  executable := executable info |}]> accs
  | None =>
      <[key := {| data := []; owner := SystemProgram_programId;
                  lamports := amount; executable := false |}]> accs
  end.

Section Client.

Variable env : Env.

(** Modelled from the spec: the store behind [createAccountWithSeed]. The
    account is created at the address derived from base, seed and owner,
    once only, funded by the payer, with [space] zero-filled bytes ("initial
    bytes are zero-filled by the store"). Transaction fees are not
    accounted for. *)
Definition process_instruction (i : Instruction) (accs : gmap PublicKey AccountInfo)
    : Result (gmap PublicKey AccountInfo) :=
  match i with
  | CreateAccountWithSeed from base seed new amount space prog =>
      if negb (bool_decide (new = createWithSeed env base seed prog)) then
        Throw (ExternalError "address does not match the seed derivation")
      else if bool_decide (is_Some (accs !! new)) then
        Throw (ExternalError "account already in use")
      else if bool_decide (balance accs from < amount) then
        Throw (ExternalError "insufficient funds")
      else
        Ok (<[new := {| data := Buffer.alloc space; owner := prog;
                        lamports := amount; executable := false |}]>
              (credit from (- amount) accs))
  | TransactionInstruction keys prog (VBuffer payload) =>
      invoke env prog keys payload accs
  | TransactionInstruction _ _ _ =>
      Throw (TypeError "Expected Buffer")
  end.

Fixpoint process_transaction (tx : Transaction) (accs : gmap PublicKey AccountInfo)
    : Result (gmap PublicKey AccountInfo) :=
  match tx with
  | [] => Ok accs
  | i :: rest =>
      match process_instruction i accs with
      | Ok accs' => process_transaction rest accs'
      | Throw e => Throw e
      end
  end.

(** Instruction data that is not a Buffer cannot be serialised. *)
Definition serialisable (i : Instruction) : bool :=
  match i with
  | TransactionInstruction _ _ (VBuffer _) => true
  | TransactionInstruction _ _ _ => false
  | CreateAccountWithSeed _ _ _ _ _ _ _ => true
  end.

(** ** Collaborator calls *)

Definition connection_getVersion : M string :=
  _ <- defined "connection" connection ;;
  emit EvGetVersion ;;;
  lift (getVersion env).

Definition connection_getRecentBlockhash : M Z :=
  _ <- defined "connection" connection ;;
  emit EvGetRecentBlockhash ;;;
  ret (lamportsPerSignature env).

Definition connection_getMinimumBalanceForRentExemption (size : nat) : M Z :=
  _ <- defined "connection" connection ;;
  emit (EvGetMinimumBalanceForRentExemption size) ;;;
  ret (getMinimumBalanceForRentExemption env size).

Definition connection_getBalance (key : PublicKey) : M Z :=
  _ <- defined "connection" connection ;;
  emit (EvGetBalance key) ;;;
  accs <- gets accounts ;;
  ret (balance accs key).

Definition connection_requestAirdrop (key : PublicKey) (amount : Z) : M unit :=
  _ <- defined "connection" connection ;;
  emit (EvRequestAirdrop key amount) ;;;
  credited <- lift (airdrop env key amount) ;;
  accs <- gets accounts ;;
  modify (set_accounts (credit key credited accs)).

Definition connection_confirmTransaction (sig : unit) : M unit :=
  _ <- defined "connection" connection ;;
  emit EvConfirmTransaction.

Definition connection_getAccountInfo (key : PublicKey) : M (option AccountInfo) :=
  _ <- defined "connection" connection ;;
  emit (EvGetAccountInfo key) ;;;
  accs <- gets accounts ;;
  ret (accs !! key).

(** [sendAndConfirmTransaction(connection, transaction, signers)]: an
    undefined connection or signer, or data that cannot be serialised,
    throws before anything is sent. *)
Definition sendAndConfirmTransaction (transaction : Transaction)
    (signers : list (option Keypair)) : M unit :=
  _ <- defined "connection" connection ;;
  match mapM id signers with
  | None => throw (TypeError "Cannot read properties of undefined: publicKey")
  | Some signers =>
      if forallb serialisable transaction then
        emit (EvSendAndConfirmTransaction transaction signers) ;;;
        if rejects env transaction then
          throw (ExternalError "failed to send transaction")
        else
          accs <- gets accounts ;;
          accs' <- lift (process_transaction transaction accs) ;;
          modify (set_accounts accs')
      else throw (TypeError "Expected Buffer")
  end.

(** ** The exported functions *)

(** [new Connection(endpoint, commitment)]: the constructor validates the
    endpoint and throws a [TypeError] when it does not accept it. *)
Definition new_Connection (endpoint commitment : string) : Result Connection :=
  if endpoint_accepted env endpoint then
    Ok {| rpcUrl := endpoint; commitment := commitment |}
  else Throw (TypeError "Endpoint URL must start with `http:` or `https:`.").

(** [establishConnection()]. *)
Definition establishConnection : M unit :=
  emit EvGetRpcUrl ;;;
  rpcUrl <- lift (getRpcUrl env) ;;
  created <- lift (new_Connection rpcUrl "confirmed") ;;
  modify (set_connection created) ;;;
  version <- connection_getVersion ;;
  console_log [Str "Connection to cluster established:"; Str version].

(** [establishPayer()]. *)
Definition establishPayer : M unit :=
  let fees := 0 in
  current <- gets payer ;;
  fees <-
    match current with
    | None =>
        lamportsPerSignature <- connection_getRecentBlockhash ;;
        rent <- connection_getMinimumBalanceForRentExemption CALCULATOR_SIZE ;;
        let fees := fees + rent in
        let fees := fees + lamportsPerSignature * 100 in
        emit EvGetPayer ;;;
        keypair <- lift (getPayer env) ;;
        modify (set_payer keypair) ;;;
        ret fees
    | Some _ => ret fees
    end ;;
  payerKey <- defined "payer" payer ;;
  lamports <- connection_getBalance (publicKey payerKey) ;;
  lamports <-
    (if lamports <? fees then
       sig <- connection_requestAirdrop (publicKey payerKey) (fees - lamports) ;;
       connection_confirmTransaction sig ;;;
       connection_getBalance (publicKey payerKey)
     else ret lamports) ;;
  console_log [Str "Using account"; Base58 (publicKey payerKey); Str "containing";
               Num (2 * LAMPORTS_PER_SOL); Str "SOL to pay for fees"].

Definition PROGRAM_SO_PATH : string := PROGRAM_PATH env +:+ "/helloworld.so".
Definition PROGRAM_KEYPAIR_PATH : string := PROGRAM_PATH env +:+ "/helloworld-keypair.json".

Definition CALCULATOR_SEED : string := "IamTheCalculator".

(** [checkProgram()]. *)
Definition checkProgram : M unit :=
  try_catch
    (emit (EvCreateKeypairFromFile PROGRAM_KEYPAIR_PATH) ;;;
     programKeypair <- lift (createKeypairFromFile env PROGRAM_KEYPAIR_PATH) ;;
     modify (set_programId (publicKey programKeypair)))
    (fun err =>
       throw (PlainError ("Failed to read program keypair at '" +:+ PROGRAM_KEYPAIR_PATH
                          +:+ "' due to error: " +:+ message err +:+ "."))) ;;;
  program <- defined "programId" programId ;;
  programInfo <- connection_getAccountInfo program ;;
  match programInfo with
  | None =>
      emit (EvExistsSync PROGRAM_SO_PATH) ;;;
      if existsSync env PROGRAM_SO_PATH then
        throw (PlainError
          "Program needs to be deployed with `solana program deploy dist/program/solana_calculator.so`")
      else throw (PlainError "Program needs to be built and deployed")
  | Some info =>
      if negb (executable info) then throw (PlainError "Program is not executable")
      else ret tt
  end ;;;
  console_log [Cat (Str "Using program ") (Base58 program)] ;;;
  payerKey <- defined "payer" payer ;;
  let derived := createWithSeed env (publicKey payerKey) CALCULATOR_SEED program in
  modify (set_calculatorPubKey derived) ;;;
  calculatorAccount <- connection_getAccountInfo derived ;;
  match calculatorAccount with
  | None =>
      console_log
        [Yellow (Cat (Str "Creating account")
                  (Cat (Str " ") (Cat (Base58 derived) (Cat (Str " ") (Str "to say hello to")))))] ;;;
      lamports <- connection_getMinimumBalanceForRentExemption CALCULATOR_SIZE ;;
      let transaction :=
        [CreateAccountWithSeed (publicKey payerKey) (publicKey payerKey) CALCULATOR_SEED
           derived lamports CALCULATOR_SIZE program] in
      sendAndConfirmTransaction transaction [Some payerKey]
  | Some _ => ret tt
  end.

(** [calculate(operation, num1, num2)]. An undefined [programId] is
    noticed by the library once the instruction has been built. *)
Definition calculate (operation : string) (num1 num2 : Z) : M unit :=
  calculator <- defined "calculatorPubKey" calculatorPubKey ;;
  console_log [Str "Sending calculate request to"; Base58 calculator] ;;;
  let instructionHandler := get_property instructionMap operation in
  data <- lift (call instructionHandler num1 num2) ;;
  program <- defined "programId" programId ;;
  let instruction :=
    new_TransactionInstruction
      [{| pubkey := calculator; isSigner := false; isWritable := true |}]
      program data in
  signer <- gets payer ;;
  sendAndConfirmTransaction [instruction] [signer].

(** The line printed by [displayResult]:
    [`${num1} ${operationType} ${num2} = ${calculator.result}`]. *)
Definition result_line (operation : string) (num1 num2 : Z) (calculator : Calculator) : Text :=
  let operationType := if String.eqb operation "add" then "+" else "-" in
  Cat (Num num1) (Cat (Str " ") (Cat (Str operationType) (Cat (Str " ")
    (Cat (Num num2) (Cat (Str " = ") (Num (result calculator))))))).

(** [displayResult(operation, num1, num2)]. *)
Definition displayResult (operation : string) (num1 num2 : Z) : M unit :=
  _ <- defined "connection" connection ;;
  calculatorKey <- defined "calculatorPubKey" calculatorPubKey ;;
  accountInfo <- connection_getAccountInfo calculatorKey ;;
  match accountInfo with
  | None => throw (ThrownString "Error: cannot find the calculator account")
  | Some info =>
      calculator <- lift (borsh.deserialize CalculatorSchema Calculator_class (data info)) ;;
      console_log [result_line operation num1 num2 calculator]
  end.

End Client.

(** ** Runs of [checkProgram] *)

(** The submissions among the events of a trace. *)
Definition is_submission (e : Event) : bool :=
  match e with
  | EvSendAndConfirmTransaction _ _ => true
  | _ => false
  end.

Definition submissions (events : list Event) : list Event := List.filter is_submission events.

Section Runs.

Variable env : Env.

(** The state reached by [checkProgram] once the program has been found
    deployed and the calculator address looked up. *)
Definition after_lookup (m : Machine) (program derived : PublicKey) : Machine :=
  record (EvGetAccountInfo derived)
    (set_calculatorPubKey derived
       (record (EvLog [Cat (Str "Using program ") (Base58 program)])
          (record (EvGetAccountInfo program)
             (set_programId program
                (record (EvCreateKeypairFromFile (PROGRAM_KEYPAIR_PATH env)) m))))).

Definition creating_line (derived : PublicKey) : Event :=
  EvLog [Yellow (Cat (Str "Creating account")
           (Cat (Str " ") (Cat (Base58 derived) (Cat (Str " ") (Str "to say hello to")))))].

Definition creation (payerKey program derived : PublicKey) : Instruction :=
  CreateAccountWithSeed payerKey payerKey CALCULATOR_SEED derived
    (getMinimumBalanceForRentExemption env CALCULATOR_SIZE) CALCULATOR_SIZE program.

(** The events of a run of [checkProgram] that finds the program deployed
    and the calculator account missing. *)
Definition provisioning_events (payerKey : Keypair) (program derived : PublicKey) : list Event :=
  [EvCreateKeypairFromFile (PROGRAM_KEYPAIR_PATH env);
   EvGetAccountInfo program;
   EvLog [Cat (Str "Using program ") (Base58 program)];
   EvGetAccountInfo derived;
   creating_line derived;
   EvGetMinimumBalanceForRentExemption CALCULATOR_SIZE;
   EvSendAndConfirmTransaction
     [CreateAccountWithSeed (publicKey payerKey) (publicKey payerKey) CALCULATOR_SEED derived
        (getMinimumBalanceForRentExemption env CALCULATOR_SIZE) CALCULATOR_SIZE program]
     [payerKey]].

End Runs.

(** ** A sample cluster

    A concrete environment and concrete machine states on which the client
    can be run. The on-chain program of the sample follows the description
    of the calculator (the result grows by both operands on add and shrinks
    by both on sub), reduced modulo [2^32]. *)

Definition sample_payer : Keypair := {| publicKey := [1] |}.
Definition sample_program : Keypair := {| publicKey := [2] |}.

Definition sample_invoke (program : PublicKey) (keys : list AccountMeta) (payload : Buffer.t)
    (accs : gmap PublicKey AccountInfo) : Result (gmap PublicKey AccountInfo) :=
  match keys, payload with
  | [key], [op; a0; a1; a2; a3; b0; b1; b2; b3] =>
      match accs !! pubkey key with
      | Some info =>
          match decodeState (data info) with
          | Ok calculator =>
              let a := Buffer.le_value [a0; a1; a2; a3] in
              let b := Buffer.le_value [b0; b1; b2; b3] in
              let r := if op =? 0 then result calculator + a + b
                       else result calculator - a - b in
              Ok (<[pubkey key := {| data := Buffer.le_bytes 4 (r mod 2 ^ 32);
                                     owner := owner info; lamports := lamports info;
                                     executable := executable info |}]> accs)
          | Throw e => Throw e
          end
      | None => Throw (ExternalError "account not found")
      end
  | _, _ => Throw (ExternalError "invalid instruction data")
  end.

Definition sample_env_with (faucet : PublicKey -> Z -> Result Z) : Env := {|
  getRpcUrl := Ok "http://127.0.0.1:8899"%string;
  getPayer := Ok sample_payer;
  createKeypairFromFile := fun _ => Ok sample_program;
  PROGRAM_PATH := "/dist/program";
  existsSync := fun _ => true;
  endpoint_accepted := fun url => String.prefix "http:" url || String.prefix "https:" url;
  getVersion := Ok "1.10"%string;
  lamportsPerSignature := 5000;
  getMinimumBalanceForRentExemption := fun size => 6960 * (128 + Z.of_nat size);
  airdrop := faucet;
  createWithSeed := fun base seed program =>
    base ++ [Z.of_nat (String.length seed)] ++ program;
  rejects := fun _ => false;
  invoke := sample_invoke
|}.

(** A faucet that grants what is asked, and one whose airdrop transaction
    fails: the confirmation resolves, nothing is credited. *)
Definition sample_env : Env := sample_env_with (fun _ amount => Ok amount).
Definition dry_env : Env := sample_env_with (fun _ _ => Ok 0).

Definition sample_program_account : AccountInfo :=
  {| data := []; owner := [3]; lamports := 1; executable := true |}.

Definition sample_connection : Connection :=
  {| rpcUrl := "http://127.0.0.1:8899"; commitment := "confirmed" |}.

(** Connected, nothing else established; the program is deployed. *)
Definition connected_machine : Machine := {|
  connection := Some sample_connection;
  payer := None; programId := None; calculatorPubKey := None;
  accounts := <[ [2] := sample_program_account ]> ∅;
  trace := []
|}.

(** Connected, with a funded payer; the calculator account does not exist. *)
Definition funded_machine : Machine := {|
  connection := Some sample_connection;
  payer := Some sample_payer; programId := None; calculatorPubKey := None;
  accounts :=
    <[ [1] := {| data := []; owner := SystemProgram_programId;
                 lamports := 2000000; executable := false |} ]>
      (<[ [2] := sample_program_account ]> ∅);
  trace := []
|}.

(** The address has been derived, the account was not created. *)
Definition unprovisioned_machine : Machine := {|
  connection := Some sample_connection;
  payer := Some sample_payer; programId := Some [2]; calculatorPubKey := Some [1; 16; 2];
  accounts := <[ [2] := sample_program_account ]> ∅;
  trace := []
|}.

(** After [checkProgram]: the calculator account exists at [[1; 16; 2]]. *)
Definition ready_machine (state : Buffer.t) : Machine := {|
  connection := Some sample_connection;
  payer := Some sample_payer; programId := Some [2]; calculatorPubKey := Some [1; 16; 2];
  accounts :=
    <[ [1; 16; 2] := {| data := state; owner := [2];
                        lamports := 918720; executable := false |} ]>
      (<[ [1] := {| data := []; owner := SystemProgram_programId;
                    lamports := 1081280; executable := false |} ]>
         (<[ [2] := sample_program_account ]> ∅));
  trace := []
|}.

(** ** Relating the machine before and after a run *)

(** The four module globals are what they were. *)
Definition same_globals (m m' : Machine) : Prop :=
  connection m' = connection m /\ payer m' = payer m
  /\ programId m' = programId m /\ calculatorPubKey m' = calculatorPubKey m.

(** A component of the machine is what it was. *)
Definition same_on {A} (f : Machine -> A) (m m' : Machine) : Prop := f m' = f m.

(** The trace has grown by events that all satisfy [P]. *)
Definition extends (P : Event -> Prop) (m m' : Machine) : Prop :=
  exists events, trace m' = trace m ++ events /\ Forall P events.

(** The events that ask the cluster to change something. *)
Definition changes_cluster (e : Event) : bool :=
  match e with
  | EvRequestAirdrop _ _ | EvSendAndConfirmTransaction _ _ => true
  | _ => false
  end.

(** Whatever the start and the outcome, a run of [c] relates the state it
    ends in to the state it started from by [R]. *)
Definition keeps {A} (R : Machine -> Machine -> Prop) (c : M A) : Prop :=
  forall m, R m (snd (c m)).

(** A run of [c] makes at most [n] submissions. *)
Definition submits_at_most {A} (n : nat) (c : M A) : Prop :=
  forall m, exists sent,
    submissions (trace (snd (c m))) = submissions (trace m) ++ sent
    /\ (length sent <= n)%nat.

(** ** Parts of the exported functions *)

(** The arguments of the line logged by [establishPayer]. *)
Definition using_line (payerKey : PublicKey) : list Text :=
  [Str "Using account"; Base58 payerKey; Str "containing";
   Num (2 * LAMPORTS_PER_SOL); Str "SOL to pay for fees"].

(** The line logged by [calculate] on entry and the one of [checkProgram]. *)
Definition sending_line (calculator : PublicKey) : Event :=
  EvLog [Str "Sending calculate request to"; Base58 calculator].

Definition program_line (program : PublicKey) : Event :=
  EvLog [Cat (Str "Using program ") (Base58 program)].

(** The instruction built by [calculate] around the encoded request. *)
Definition request (calculator program : PublicKey) (payload : Buffer.t) : Instruction :=
  TransactionInstruction
    [{| pubkey := calculator; isSigner := false; isWritable := true |}]
    program (VBuffer payload).

Section Parts.

Variable env : Env.

(** [establishPayer] from [let lamports = await connection.getBalance(...)]
    on, with the fees computed before. *)
Definition establishPayer_rest (fees : Z) : M unit :=
  payerKey <- defined "payer" payer ;;
  lamports <- connection_getBalance (publicKey payerKey) ;;
  lamports <-
    (if lamports <? fees then
       sig <- connection_requestAirdrop env (publicKey payerKey) (fees - lamports) ;;
       connection_confirmTransaction sig ;;;
       connection_getBalance (publicKey payerKey)
     else ret lamports) ;;
  console_log [Str "Using account"; Base58 (publicKey payerKey); Str "containing";
               Num (2 * LAMPORTS_PER_SOL); Str "SOL to pay for fees"].

(** The fees [establishPayer] computes when it has to load the payer. *)
Definition first_fees : Z :=
  getMinimumBalanceForRentExemption env CALCULATOR_SIZE + lamportsPerSignature env * 100.

(** The message of the error [checkProgram] throws when the keypair file
    cannot be read. *)
Definition keypair_failure (err : Error) : Error :=
  PlainError ("Failed to read program keypair at '" +:+ PROGRAM_KEYPAIR_PATH env
              +:+ "' due to error: " +:+ message err +:+ ".").

End Parts.

(** ** More sample clusters *)

Definition custom_env (url version : Result string) (payerFile programFile : Result Keypair)
    (built : bool) (faucet : PublicKey -> Z -> Result Z) (turned_down : bool) : Env := {|
  getRpcUrl := url;
  getPayer := payerFile;
  createKeypairFromFile := fun _ => programFile;
  PROGRAM_PATH := "/dist/program";
  existsSync := fun _ => built;
  endpoint_accepted := fun url => String.prefix "http:" url || String.prefix "https:" url;
  getVersion := version;
  lamportsPerSignature := 5000;
  getMinimumBalanceForRentExemption := fun size => 6960 * (128 + Z.of_nat size);
  airdrop := faucet;
  createWithSeed := fun base seed program =>
    base ++ [Z.of_nat (String.length seed)] ++ program;
  rejects := fun _ => turned_down;
  invoke := sample_invoke
|}.

(** Sample clusters on which one collaborator fails. *)
Definition grant : PublicKey -> Z -> Result Z := fun _ amount => Ok amount.

Definition no_url_env : Env :=
  custom_env (Throw (PlainError "no config")) (Ok "1.10"%string) (Ok sample_payer)
    (Ok sample_program) true grant false.
Definition bad_url_env : Env :=
  custom_env (Ok "127.0.0.1:8899"%string) (Ok "1.10"%string) (Ok sample_payer)
    (Ok sample_program) true grant false.
Definition no_version_env : Env :=
  custom_env (Ok "http://127.0.0.1:8899"%string) (Throw (ExternalError "fetch failed"))
    (Ok sample_payer) (Ok sample_program) true grant false.
Definition no_payer_env : Env :=
  custom_env (Ok "http://127.0.0.1:8899"%string) (Ok "1.10"%string)
    (Throw (PlainError "no keypair")) (Ok sample_program) true grant false.
Definition closed_faucet_env : Env :=
  custom_env (Ok "http://127.0.0.1:8899"%string) (Ok "1.10"%string) (Ok sample_payer)
    (Ok sample_program) true (fun _ _ => Throw (ExternalError "airdrop limit")) false.
Definition no_keypair_env : Env :=
  custom_env (Ok "http://127.0.0.1:8899"%string) (Ok "1.10"%string) (Ok sample_payer)
    (Throw (PlainError "ENOENT")) true grant false.
Definition unbuilt_env : Env :=
  custom_env (Ok "http://127.0.0.1:8899"%string) (Ok "1.10"%string) (Ok sample_payer)
    (Ok sample_program) false grant false.
Definition rejecting_env : Env :=
  custom_env (Ok "http://127.0.0.1:8899"%string) (Ok "1.10"%string) (Ok sample_payer)
    (Ok sample_program) true grant true.

(** Nothing established; the cluster holds the deployed program. *)
Definition blank_machine : Machine := {|
  connection := None; payer := None; programId := None; calculatorPubKey := None;
  accounts := <[ [2] := sample_program_account ]> ∅;
  trace := []
|}.

(** Connected; the payer to be loaded already owns more than the fees. *)
Definition endowed_machine : Machine := {|
  connection := Some sample_connection;
  payer := None; programId := None; calculatorPubKey := None;
  accounts :=
    <[ [1] := {| data := []; owner := SystemProgram_programId;
                 lamports := 2000000; executable := false |} ]>
      (<[ [2] := sample_program_account ]> ∅);
  trace := []
|}.

(** Connected, with a payer, on a cluster where the program is an account
    that is not executable, and on one without the program. *)
Definition inert_program_machine : Machine := {|
  connection := Some sample_connection;
  payer := Some sample_payer; programId := None; calculatorPubKey := None;
  accounts := <[ [2] := {| data := []; owner := [3]; lamports := 1; executable := false |} ]> ∅;
  trace := []
|}.

(** Connected, the program deployed, a payer that owns nothing. *)
Definition penniless_machine : Machine := {|
  connection := Some sample_connection;
  payer := Some sample_payer; programId := None; calculatorPubKey := None;
  accounts := <[ [2] := sample_program_account ]> ∅;
  trace := []
|}.

Definition empty_cluster_machine : Machine := {|
  connection := Some sample_connection;
  payer := Some sample_payer; programId := None; calculatorPubKey := None;
  accounts := ∅;
  trace := []
|}.


(** * Properties *)

(** ** Little-endian bytes *)

Lemma le_bytes_length (k : nat) (v : Z) : length (Buffer.le_bytes k v) = k.
Proof. revert v. induction k as [|k IH]; intros v; simpl; [reflexivity | by rewrite IH]. Qed.

Lemma land_255 (v : Z) : Z.land v 255 = v mod 256.
Proof. change 255 with (Z.ones 8). rewrite Z.land_ones by lia. reflexivity. Qed.

Lemma le_bytes_wf (k : nat) (v : Z) : Buffer.wf (Buffer.le_bytes k v).
Proof.
  revert v. induction k as [|k IH]; intros v; simpl.
  - constructor.
  - constructor; [| apply IH]. rewrite land_255.
    apply Z.mod_pos_bound. lia.
Qed.

Lemma le_value_le_bytes (k : nat) (v : Z) :
  0 <= v < 2 ^ (8 * Z.of_nat k) -> Buffer.le_value (Buffer.le_bytes k v) = v.
Proof.
  revert v. induction k as [|k IH]; intros v Hv.
  - simpl in *. lia.
  - cbn [Buffer.le_bytes Buffer.le_value].
    rewrite land_255, Z.shiftr_div_pow2 by lia.
    rewrite IH.
    + change (2 ^ 8) with 256. pose proof (Z.div_mod v 256). lia.
    + replace (8 * Z.of_nat (S k)) with (8 + 8 * Z.of_nat k) in Hv by lia.
      rewrite Z.pow_add_r in Hv by lia. change (2 ^ 8) with 256 in *.
      split; [apply Z.div_pos; lia |].
      apply Z.div_lt_upper_bound; lia.
Qed.

(** ** The request encoder *)

Lemma writeUIntLE_in_range (v : Z) (offset k : nat) (buf : Buffer.t) :
  0 <= v < 2 ^ (8 * Z.of_nat k) -> (offset + k <= length buf)%nat ->
  Buffer.writeUIntLE v offset k buf = Ok (list_inserts offset (Buffer.le_bytes k v) buf).
Proof.
  intros Hv Hlen. unfold Buffer.writeUIntLE.
  rewrite decide_True by lia. rewrite decide_True by lia. reflexivity.
Qed.

Lemma createInstruction_bytes (operation : string) (num1 num2 : Z) :
  0 <= num1 < 2 ^ 32 -> 0 <= num2 < 2 ^ 32 ->
  createInstruction operation num1 num2 =
    Ok (opcode operation :: Buffer.le_bytes 4 num1 ++ Buffer.le_bytes 4 num2).
Proof.
  intros H1 H2. unfold createInstruction, BufferLayout.encode, Settings_layout.
  cbn [BufferLayout.fields BufferLayout.encode_fields BufferLayout.u8 BufferLayout.u32
       BufferLayout.property BufferLayout.span BufferLayout.UInt_encode].
  replace (Settings _ num1 num2 !! "instruction"%string) with (Some (opcode operation))
    by (unfold Settings; by simplify_map_eq).
  replace (Settings _ num1 num2 !! "num1"%string) with (Some num1)
    by (unfold Settings; by simplify_map_eq).
  replace (Settings _ num1 num2 !! "num2"%string) with (Some num2)
    by (unfold Settings; by simplify_map_eq).
  unfold BufferLayout.UInt_encode, BufferLayout.u8, BufferLayout.u32.
  cbn [BufferLayout.span].
  change (Buffer.alloc _) with (replicate 9 0).
  rewrite writeUIntLE_in_range; [| unfold opcode; destruct (String.eqb _ _); simpl; lia | simpl; lia].
  rewrite writeUIntLE_in_range; [| simpl; lia | rewrite length_inserts; simpl; lia].
  rewrite writeUIntLE_in_range; [| simpl; lia | rewrite !length_inserts; simpl; lia].
  unfold opcode. destruct (String.eqb operation "add"); reflexivity.
Qed.

Lemma readUIntLE_app (pre mid post : list Z) (k : nat) :
  length mid = k ->
  Buffer.readUIntLE (length pre) k (pre ++ mid ++ post) = Ok (Buffer.le_value mid).
Proof.
  intros Hk. unfold Buffer.readUIntLE.
  rewrite decide_True by (rewrite !length_app; lia).
  rewrite drop_app_length. rewrite take_app_length' by done. reflexivity.
Qed.

Lemma decode_createInstruction (op num1 num2 : Z) (b1 b2 : list Z) :
  length b1 = 4%nat -> length b2 = 4%nat ->
  Buffer.le_value b1 = num1 -> Buffer.le_value b2 = num2 ->
  BufferLayout.decode Settings_layout (op :: b1 ++ b2) 0 = Ok (Settings op num1 num2).
Proof.
  intros L1 L2 V1 V2.
  unfold BufferLayout.decode, Settings_layout.
  cbn [BufferLayout.fields BufferLayout.decode_fields].
  unfold BufferLayout.UInt_decode, BufferLayout.u8, BufferLayout.u32.
  cbn [BufferLayout.span BufferLayout.property].
  pose proof (readUIntLE_app [] [op] (b1 ++ b2) 1 eq_refl) as E0.
  pose proof (readUIntLE_app [op] b1 b2 4 L1) as E1.
  pose proof (readUIntLE_app ([op] ++ b1) b2 [] 4 L2) as E2.
  rewrite length_app, L1, app_nil_r in E2.
  cbn [length app Nat.add] in E0, E1, E2. cbn [Nat.add].
  rewrite E0, E1, E2, V1, V2. cbn [Buffer.le_value]. replace (op + 2 ^ 8 * 0) with op by lia.
  reflexivity.
Qed.

(** ** The state codec *)

Lemma encodeState_bytes (r : Z) :
  0 <= r < 2 ^ 32 -> encodeState {| result := r |} = Ok (Buffer.le_bytes 4 r).
Proof.
  intros Hr. unfold encodeState, borsh.serialize. simpl String.eqb. cbv iota.
  cbn [CalculatorSchema borsh.fields borsh.serializeStruct Calculator_class borsh.get_field].
  simpl String.eqb. cbv iota. unfold borsh.write. cbn [borsh.width result].
  rewrite writeUIntLE_in_range; [reflexivity | simpl; lia | simpl; lia].
Qed.

Lemma decodeState_4 (buffer : Buffer.t) :
  length buffer = 4%nat -> decodeState buffer = Ok {| result := Buffer.le_value buffer |}.
Proof.
  intros Hlen. unfold decodeState, borsh.deserialize. simpl String.eqb. cbv iota.
  cbn [CalculatorSchema borsh.fields borsh.deserializeStruct]. unfold borsh.read.
  cbn [borsh.width].
  pose proof (readUIntLE_app [] buffer [] 4 Hlen) as E.
  rewrite app_nil_r in E. cbn [length app] in E. rewrite E.
  rewrite decide_False by (rewrite Hlen; simpl; lia).
  unfold Calculator_class, new_Calculator. cbn [borsh.construct].
  rewrite lookup_insert_eq. reflexivity.
Qed.

Lemma decodeState_short (buffer : Buffer.t) :
  (length buffer < 4)%nat ->
  decodeState buffer = Throw (BorshError "Reached the end of buffer when deserializing").
Proof.
  intros Hlen. unfold decodeState, borsh.deserialize. simpl String.eqb. cbv iota.
  cbn [CalculatorSchema borsh.fields borsh.deserializeStruct]. unfold borsh.read, Buffer.readUIntLE.
  cbn [borsh.width]. rewrite decide_False by lia. reflexivity.
Qed.

Lemma decodeState_long (buffer : Buffer.t) :
  (4 < length buffer)%nat ->
  decodeState buffer =
    Throw (BorshError ("Unexpected " +:+ pretty (length buffer - 4)%nat
                       +:+ " bytes after deserialized data")).
Proof.
  intros Hlen. unfold decodeState, borsh.deserialize. simpl String.eqb. cbv iota.
  cbn [CalculatorSchema borsh.fields borsh.deserializeStruct]. unfold borsh.read, Buffer.readUIntLE.
  cbn [borsh.width]. rewrite decide_True by lia.
  replace (0 + 4)%nat with 4%nat by reflexivity.
  rewrite decide_True by lia. reflexivity.
Qed.

Lemma decodeState_zero_filled : decodeState (Buffer.alloc CALCULATOR_SIZE) = Ok {| result := 0 |}.
Proof. vm_compute. reflexivity. Qed.

(** ** The codecs: claims *)

(** C2. For a request naming "add" or "sub" with operands in the unsigned
    32-bit range, [createInstruction] does not throw and returns exactly nine
    bytes: the opcode byte (0 for add, 1 for sub), then the four bytes of
    [num1], then the four bytes of [num2], each operand least significant
    byte first. *)
Theorem createInstruction_request_layout (operation : string) (num1 num2 : Z) :
  operation = "add"%string \/ operation = "sub"%string ->
  0 <= num1 < 2 ^ 32 -> 0 <= num2 < 2 ^ 32 ->
  exists op b1 b2,
    createInstruction operation num1 num2 = Ok (op :: b1 ++ b2)
    /\ length (op :: b1 ++ b2) = 9%nat
    /\ (operation = "add"%string -> op = 0) /\ (operation = "sub"%string -> op = 1)
    /\ length b1 = 4%nat /\ Buffer.wf b1 /\ Buffer.le_value b1 = num1
    /\ length b2 = 4%nat /\ Buffer.wf b2 /\ Buffer.le_value b2 = num2.
Proof.
  intros Hop H1 H2.
  exists (opcode operation), (Buffer.le_bytes 4 num1), (Buffer.le_bytes 4 num2).
  split; [by apply createInstruction_bytes |].
  split; [cbn [length]; rewrite length_app, !le_bytes_length; reflexivity |].
  split; [intros ->; reflexivity |].
  split; [intros ->; reflexivity |].
  repeat split; auto using le_bytes_length, le_bytes_wf.
  all: apply le_value_le_bytes; simpl; lia.
Qed.

Lemma createInstruction_request_layout_witness :
  exists op b1 b2,
    createInstruction "sub" 4294967295 258 = Ok (op :: b1 ++ b2)
    /\ length (op :: b1 ++ b2) = 9%nat
    /\ ("sub"%string = "add"%string -> op = 0) /\ ("sub"%string = "sub"%string -> op = 1)
    /\ length b1 = 4%nat /\ Buffer.wf b1 /\ Buffer.le_value b1 = 4294967295
    /\ length b2 = 4%nat /\ Buffer.wf b2 /\ Buffer.le_value b2 = 258.
Proof.
  apply (createInstruction_request_layout "sub" 4294967295 258);
    [right; reflexivity | lia | lia].
Defined.

(** C10. Inside [createInstruction] the opcode byte is 0 exactly when the
    operation string is "add" and 1 for every other string: the encoder
    accepts any name, and a name other than "add" is encoded exactly as "sub"
    is, whatever the operands. *)
Theorem createInstruction_opcode_default (operation : string) (num1 num2 : Z) :
  0 <= num1 < 2 ^ 32 -> 0 <= num2 < 2 ^ 32 ->
  (exists op rest,
     createInstruction operation num1 num2 = Ok (op :: rest)
     /\ (op = 0 <-> operation = "add"%string)
     /\ (operation <> "add"%string -> op = 1))
  /\ (operation <> "add"%string ->
      forall n1 n2, createInstruction operation n1 n2 = createInstruction "sub" n1 n2).
Proof.
  intros H1 H2. split.
  - exists (opcode operation), (Buffer.le_bytes 4 num1 ++ Buffer.le_bytes 4 num2).
    split; [by apply createInstruction_bytes |].
    unfold opcode. destruct (String.eqb_spec operation "add") as [->|Hne].
    + split; [split; reflexivity | intros Hne; by destruct Hne].
    + split; [split; [discriminate | intros ->; by destruct Hne] | reflexivity].
  - intros Hne n1 n2. unfold createInstruction, opcode.
    destruct (String.eqb_spec operation "add") as [->|_]; [by destruct Hne | reflexivity].
Qed.

Lemma createInstruction_opcode_default_witness :
  (exists op rest,
     createInstruction "mul" 7 5 = Ok (op :: rest)
     /\ (op = 0 <-> "mul"%string = "add"%string)
     /\ ("mul"%string <> "add"%string -> op = 1))
  /\ ("mul"%string <> "add"%string ->
      forall n1 n2, createInstruction "mul" n1 n2 = createInstruction "sub" n1 n2).
Proof. apply (createInstruction_opcode_default "mul" 7 5); lia. Defined.

(** C3. Both codecs round-trip. Decoding the bytes that encode the state
    record with result [r] gives back that record, for every unsigned 32-bit
    [r]; and decoding, with the layout that encoded it, the nine bytes of a
    valid request gives back its three fields: the opcode (0 for add, 1 for
    sub) under "instruction", the first operand under "num1" and the second
    under "num2". *)
Theorem codecs_round_trip (r : Z) (operation : string) (num1 num2 : Z) :
  0 <= r < 2 ^ 32 ->
  operation = "add"%string \/ operation = "sub"%string ->
  0 <= num1 < 2 ^ 32 -> 0 <= num2 < 2 ^ 32 ->
  (exists bytes,
     encodeState (new_Calculator (Some {[ "result"%string := r ]})) = Ok bytes
     /\ decodeState bytes = Ok {| result := r |})
  /\ (exists data decoded,
        createInstruction operation num1 num2 = Ok data
        /\ length data = 9%nat
        /\ BufferLayout.decode Settings_layout data 0 = Ok decoded
        /\ (operation = "add"%string -> decoded !! "instruction"%string = Some 0)
        /\ (operation = "sub"%string -> decoded !! "instruction"%string = Some 1)
        /\ decoded !! "num1"%string = Some num1
        /\ decoded !! "num2"%string = Some num2
        /\ dom decoded = {[ "instruction"%string; "num1"%string; "num2"%string ]}).
Proof.
  intros Hr Hop H1 H2. split.
  - exists (Buffer.le_bytes 4 r).
    replace (new_Calculator (Some {[ "result"%string := r ]})) with {| result := r |}
      by (unfold new_Calculator; by rewrite lookup_singleton_eq).
    split; [by apply encodeState_bytes |].
    rewrite decodeState_4 by apply le_bytes_length.
    rewrite le_value_le_bytes by (simpl; lia). reflexivity.
  - exists (opcode operation :: Buffer.le_bytes 4 num1 ++ Buffer.le_bytes 4 num2).
    exists (Settings (opcode operation) num1 num2).
    split; [by apply createInstruction_bytes |].
    split; [cbn [length]; rewrite length_app, !le_bytes_length; reflexivity |].
    split.
    { apply decode_createInstruction; auto using le_bytes_length.
      all: apply le_value_le_bytes; simpl; lia. }
    unfold Settings.
    split; [intros ->; by simplify_map_eq |].
    split; [intros ->; by simplify_map_eq |].
    split; [by simplify_map_eq |].
    split; [by simplify_map_eq |].
    rewrite !dom_insert_L, dom_empty_L. set_solver.
Qed.

Lemma codecs_round_trip_witness :
  (exists bytes,
     encodeState (new_Calculator (Some {[ "result"%string := 305419896 ]})) = Ok bytes
     /\ decodeState bytes = Ok {| result := 305419896 |})
  /\ (exists data decoded,
        createInstruction "sub" 7 5 = Ok data
        /\ length data = 9%nat
        /\ BufferLayout.decode Settings_layout data 0 = Ok decoded
        /\ ("sub"%string = "add"%string -> decoded !! "instruction"%string = Some 0)
        /\ ("sub"%string = "sub"%string -> decoded !! "instruction"%string = Some 1)
        /\ decoded !! "num1"%string = Some 7
        /\ decoded !! "num2"%string = Some 5
        /\ dom decoded = {[ "instruction"%string; "num1"%string; "num2"%string ]}).
Proof.
  apply (codecs_round_trip 305419896 "sub" 7 5); [lia | right; reflexivity | lia | lia].
Defined.

(** C4. [decodeState] succeeds exactly on four-byte buffers: a buffer of any
    other length is rejected with a [BorshError], a four-byte buffer decodes
    to the record holding its little-endian value, and the zero-filled buffer
    of the account size decodes to result 0. *)
Theorem decodeState_exactly_four_bytes (buffer : Buffer.t) :
  (length buffer <> 4%nat -> exists msg, decodeState buffer = Throw (BorshError msg))
  /\ (length buffer = 4%nat -> decodeState buffer = Ok {| result := Buffer.le_value buffer |})
  /\ decodeState (Buffer.alloc CALCULATOR_SIZE) = Ok {| result := 0 |}.
Proof.
  split; [| split].
  - intros Hlen. destruct (decide (length buffer < 4)%nat).
    + eexists. by apply decodeState_short.
    + eexists. apply decodeState_long. lia.
  - apply decodeState_4.
  - apply decodeState_zero_filled.
Qed.

Lemma decodeState_exactly_four_bytes_witness :
  (exists msg, decodeState [1; 2; 3; 4; 5] = Throw (BorshError msg))
  /\ (exists msg, decodeState [1; 2; 3] = Throw (BorshError msg))
  /\ decodeState [12; 0; 0; 0] = Ok {| result := 12 |}.
Proof.
  split; [| split].
  - apply (decodeState_exactly_four_bytes [1; 2; 3; 4; 5]). simpl. lia.
  - apply (decodeState_exactly_four_bytes [1; 2; 3]). simpl. lia.
  - apply (decodeState_exactly_four_bytes [12; 0; 0; 0]). reflexivity.
Defined.

(** ** Running the asynchronous functions *)

Ltac run_async :=
  unfold bind, ret, throw, lift, gets, modify, emit, defined, console_log, try_catch.

Lemma bind_Ok {A B} (c : M A) (k : A -> M B) (m m' : Machine) (a : A) :
  c m = (Ok a, m') -> bind c k m = k a m'.
Proof. intros H. unfold bind. rewrite H. reflexivity. Qed.

Ltac globals :=
  cbn [connection payer programId calculatorPubKey accounts trace record
       set_connection set_payer set_programId set_calculatorPubKey set_accounts].

Lemma submissions_app (l1 l2 : list Event) :
  submissions (l1 ++ l2) = submissions l1 ++ submissions l2.
Proof. apply List.filter_app. Qed.

Lemma credit_keeps_executable (accs : gmap PublicKey AccountInfo) (key other : PublicKey)
    (amount : Z) (info : AccountInfo) :
  accs !! key = Some info ->
  exists info', credit other amount accs !! key = Some info'
                /\ executable info' = executable info.
Proof.
  intros Hk. unfold credit. destruct (decide (other = key)) as [->|Hne].
  - rewrite Hk, lookup_insert_eq. eexists. split; reflexivity.
  - destruct (accs !! other); rewrite lookup_insert_ne by done; eauto.
Qed.

Section Properties.

Variable env : Env.

Lemma getAccountInfo_connected (key : PublicKey) (m : Machine) (conn : Connection) :
  connection m = Some conn ->
  connection_getAccountInfo key m = (Ok (accounts m !! key), record (EvGetAccountInfo key) m).
Proof.
  intros Hc. unfold connection_getAccountInfo. run_async. rewrite Hc. reflexivity.
Qed.

Lemma getMinimumBalance_connected (size : nat) (m : Machine) (conn : Connection) :
  connection m = Some conn ->
  connection_getMinimumBalanceForRentExemption env size m =
    (Ok (getMinimumBalanceForRentExemption env size),
     record (EvGetMinimumBalanceForRentExemption size) m).
Proof.
  intros Hc. unfold connection_getMinimumBalanceForRentExemption. run_async.
  rewrite Hc. reflexivity.
Qed.

(** *** [displayResult] *)

Lemma displayResult_eq (operation : string) (num1 num2 : Z) (m : Machine)
    (conn : Connection) (key : PublicKey) :
  connection m = Some conn ->
  calculatorPubKey m = Some key ->
  displayResult operation num1 num2 m =
    match accounts m !! key with
    | None =>
        (Throw (ThrownString "Error: cannot find the calculator account"),
         record (EvGetAccountInfo key) m)
    | Some info =>
        match decodeState (data info) with
        | Throw e => (Throw e, record (EvGetAccountInfo key) m)
        | Ok calculator =>
            (Ok tt, record (EvLog [result_line operation num1 num2 calculator])
                      (record (EvGetAccountInfo key) m))
        end
    end.
Proof.
  intros Hc Hk. unfold displayResult.
  unfold bind at 1. unfold defined at 1. rewrite Hc.
  unfold bind at 1. unfold defined at 1. rewrite Hk.
  unfold bind at 1. rewrite (getAccountInfo_connected key m conn Hc).
  destruct (accounts m !! key) as [info|]; [| reflexivity].
  unfold decodeState. run_async.
  destruct (borsh.deserialize _ _ _); reflexivity.
Qed.

(** C9. With the calculator account absent, [displayResult] throws its
    "cannot find the calculator account" error, having done nothing but
    the fetch: globals and accounts are untouched, nothing is printed or
    submitted. With the account present it decodes the fetched bytes with
    the state codec; a decoding error is thrown unchanged, and a decoded
    record is printed. *)
Theorem displayResult_absent_or_decoded (operation : string) (num1 num2 : Z)
    (m : Machine) (conn : Connection) (key : PublicKey) :
  connection m = Some conn ->
  calculatorPubKey m = Some key ->
  (accounts m !! key = None ->
     displayResult operation num1 num2 m =
       (Throw (ThrownString "Error: cannot find the calculator account"),
        record (EvGetAccountInfo key) m))
  /\ (forall info e,
        accounts m !! key = Some info -> decodeState (data info) = Throw e ->
        displayResult operation num1 num2 m = (Throw e, record (EvGetAccountInfo key) m))
  /\ (forall info calculator,
        accounts m !! key = Some info -> decodeState (data info) = Ok calculator ->
        displayResult operation num1 num2 m =
          (Ok tt, record (EvLog [result_line operation num1 num2 calculator])
                    (record (EvGetAccountInfo key) m))).
Proof.
  intros Hc Hk. rewrite (displayResult_eq operation num1 num2 m conn key Hc Hk).
  repeat split.
  - intros ->. reflexivity.
  - intros info e -> ->. reflexivity.
  - intros info c -> ->. reflexivity.
Qed.

(** *** [calculate] *)

(** *** [checkProgram] *)

Lemma checkProgram_eq (m : Machine) (conn : Connection) (payerKey programKey : Keypair)
    (info : AccountInfo) :
  connection m = Some conn ->
  payer m = Some payerKey ->
  createKeypairFromFile env (PROGRAM_KEYPAIR_PATH env) = Ok programKey ->
  accounts m !! publicKey programKey = Some info ->
  executable info = true ->
  let program := publicKey programKey in
  let derived := createWithSeed env (publicKey payerKey) CALCULATOR_SEED program in
  checkProgram env m =
    match accounts m !! derived with
    | Some _ => (Ok tt, after_lookup env m program derived)
    | None =>
        sendAndConfirmTransaction env [creation env (publicKey payerKey) program derived]
          [Some payerKey]
          (record (EvGetMinimumBalanceForRentExemption CALCULATOR_SIZE)
             (record (creating_line derived) (after_lookup env m program derived)))
    end.
Proof.
  intros Hc Hp Hfile Hprog Hexec program derived.
  unfold checkProgram.
  erewrite bind_Ok; cycle 1.
  { unfold try_catch, bind, emit, modify, lift. rewrite Hfile. reflexivity. }
  erewrite bind_Ok; cycle 1.
  { unfold defined. globals. reflexivity. }
  erewrite bind_Ok; cycle 1.
  { apply getAccountInfo_connected with conn. exact Hc. }
  globals. rewrite Hprog.
  erewrite bind_Ok; cycle 1.
  { rewrite Hexec. reflexivity. }
  erewrite bind_Ok; cycle 1.
  { reflexivity. }
  erewrite bind_Ok; cycle 1.
  { unfold defined. globals. rewrite Hp. reflexivity. }
  erewrite bind_Ok; cycle 1.
  { reflexivity. }
  erewrite bind_Ok; cycle 1.
  { apply getAccountInfo_connected with conn. exact Hc. }
  globals. fold program. fold derived.
  destruct (accounts m !! derived) as [existing|]; [reflexivity |].
  erewrite bind_Ok; cycle 1.
  { reflexivity. }
  erewrite bind_Ok; cycle 1.
  { apply getMinimumBalance_connected with conn. exact Hc. }
  reflexivity.
Qed.


Lemma creation_processed (accs : gmap PublicKey AccountInfo) (payerKey program : PublicKey) :
  let derived := createWithSeed env payerKey CALCULATOR_SEED program in
  accs !! derived = None ->
  getMinimumBalanceForRentExemption env CALCULATOR_SIZE <= balance accs payerKey ->
  process_transaction env [creation env payerKey program derived] accs =
    Ok (<[derived := {| data := Buffer.alloc CALCULATOR_SIZE; owner := program;
                        lamports := getMinimumBalanceForRentExemption env CALCULATOR_SIZE;
                        executable := false |}]>
          (credit payerKey (- getMinimumBalanceForRentExemption env CALCULATOR_SIZE) accs)).
Proof.
  intros derived Hnone Hfunds.
  unfold process_transaction, creation, process_instruction.
  rewrite bool_decide_eq_true_2 by reflexivity. cbn [negb].
  rewrite bool_decide_eq_false_2 by (rewrite Hnone; by intros [? ?]).
  rewrite bool_decide_eq_false_2 by lia.
  reflexivity.
Qed.

Lemma sendAndConfirmTransaction_creation (m : Machine) (conn : Connection)
    (payerKey : Keypair) (program derived : PublicKey) :
  connection m = Some conn ->
  let transaction := [creation env (publicKey payerKey) program derived] in
  let sent := record (EvSendAndConfirmTransaction transaction [payerKey]) m in
  sendAndConfirmTransaction env transaction [Some payerKey] m =
    if rejects env transaction then (Throw (ExternalError "failed to send transaction"), sent)
    else
      match process_transaction env transaction (accounts m) with
      | Ok accs => (Ok tt, set_accounts accs sent)
      | Throw e => (Throw e, sent)
      end.
Proof.
  intros Hc transaction sent. unfold sendAndConfirmTransaction.
  erewrite bind_Ok; cycle 1.
  { unfold defined. rewrite Hc. reflexivity. }
  change (mapM id [Some payerKey]) with (Some [payerKey]).
  change (forallb serialisable transaction) with true. cbv iota.
  erewrite bind_Ok; cycle 1.
  { reflexivity. }
  destruct (rejects env transaction); [reflexivity |].
  run_async. globals.
  destruct (process_transaction env transaction (accounts m)); reflexivity.
Qed.


Lemma checkProgram_creates (m : Machine) (conn : Connection) (payerKey programKey : Keypair)
    (info : AccountInfo) :
  connection m = Some conn ->
  payer m = Some payerKey ->
  createKeypairFromFile env (PROGRAM_KEYPAIR_PATH env) = Ok programKey ->
  accounts m !! publicKey programKey = Some info ->
  executable info = true ->
  let program := publicKey programKey in
  let derived := createWithSeed env (publicKey payerKey) CALCULATOR_SEED program in
  let transaction := [creation env (publicKey payerKey) program derived] in
  let sent :=
    record (EvSendAndConfirmTransaction transaction [payerKey])
      (record (EvGetMinimumBalanceForRentExemption CALCULATOR_SIZE)
         (record (creating_line derived) (after_lookup env m program derived))) in
  accounts m !! derived = None ->
  checkProgram env m =
    if rejects env transaction then (Throw (ExternalError "failed to send transaction"), sent)
    else
      match process_transaction env transaction (accounts m) with
      | Ok accs => (Ok tt, set_accounts accs sent)
      | Throw e => (Throw e, sent)
      end.
Proof.
  intros Hc Hp Hfile Hprog Hexec program derived transaction sent Hnone.
  rewrite (checkProgram_eq m conn payerKey programKey info Hc Hp Hfile Hprog Hexec).
  fold program. fold derived. rewrite Hnone.
  rewrite (sendAndConfirmTransaction_creation _ conn) by exact Hc.
  reflexivity.
Qed.

Lemma trace_sent (m : Machine) (payerKey : Keypair) (program derived : PublicKey) :
  trace (record (EvSendAndConfirmTransaction [creation env (publicKey payerKey) program derived]
                   [payerKey])
           (record (EvGetMinimumBalanceForRentExemption CALCULATOR_SIZE)
              (record (creating_line derived) (after_lookup env m program derived))))
  = trace m ++ provisioning_events env payerKey program derived.
Proof.
  unfold after_lookup. globals. rewrite <- !app_assoc. reflexivity.
Qed.

(** C5. The encoded zero-valued state has four bytes, [CALCULATOR_SIZE] is
    that length, and a run of [checkProgram] that has to create the
    calculator account passes this one constant both to the rent-exemption
    query and as the space of the account it asks the cluster to create. *)
Theorem CALCULATOR_SIZE_is_the_provisioned_size (m : Machine) (conn : Connection)
    (payerKey programKey : Keypair) (info : AccountInfo) :
  connection m = Some conn ->
  payer m = Some payerKey ->
  createKeypairFromFile env (PROGRAM_KEYPAIR_PATH env) = Ok programKey ->
  accounts m !! publicKey programKey = Some info ->
  executable info = true ->
  let program := publicKey programKey in
  let derived := createWithSeed env (publicKey payerKey) CALCULATOR_SEED program in
  accounts m !! derived = None ->
  (exists bytes,
     encodeState (new_Calculator None) = Ok bytes
     /\ length bytes = 4%nat /\ CALCULATOR_SIZE = length bytes)
  /\ trace (snd (checkProgram env m)) =
       trace m ++
         [EvCreateKeypairFromFile (PROGRAM_KEYPAIR_PATH env);
          EvGetAccountInfo program;
          EvLog [Cat (Str "Using program ") (Base58 program)];
          EvGetAccountInfo derived;
          creating_line derived;
          EvGetMinimumBalanceForRentExemption CALCULATOR_SIZE;
          EvSendAndConfirmTransaction
            [CreateAccountWithSeed (publicKey payerKey) (publicKey payerKey)
               CALCULATOR_SEED derived
               (getMinimumBalanceForRentExemption env CALCULATOR_SIZE)
               CALCULATOR_SIZE program]
            [payerKey]].
Proof.
  intros Hc Hp Hfile Hprog Hexec program derived Hnone. split.
  - exists (Buffer.le_bytes 4 0). split; [| split; reflexivity].
    apply (encodeState_bytes 0). lia.
  - rewrite (checkProgram_creates m conn payerKey programKey info Hc Hp Hfile Hprog Hexec Hnone).
    fold program. fold derived.
    destruct (rejects env _); [| destruct (process_transaction env _ _)];
      cbn [snd]; try (change (trace (set_accounts ?a ?s)) with (trace s));
      apply trace_sent.
Qed.

(** C6. Provisioning is idempotent. When the cluster already holds an
    account at the derived address, [checkProgram] returns without
    submitting anything and leaves the accounts as they are. When the
    account is missing and the creation goes through, two runs in a row
    make exactly one submission, the account creation, and leave an
    account at the derived address whose state decodes to result 0. *)
Theorem checkProgram_idempotent (m : Machine) (conn : Connection)
    (payerKey programKey : Keypair) (info : AccountInfo) :
  connection m = Some conn ->
  payer m = Some payerKey ->
  createKeypairFromFile env (PROGRAM_KEYPAIR_PATH env) = Ok programKey ->
  accounts m !! publicKey programKey = Some info ->
  executable info = true ->
  let program := publicKey programKey in
  let derived := createWithSeed env (publicKey payerKey) CALCULATOR_SEED program in
  let transaction :=
    [CreateAccountWithSeed (publicKey payerKey) (publicKey payerKey) CALCULATOR_SEED derived
       (getMinimumBalanceForRentExemption env CALCULATOR_SIZE) CALCULATOR_SIZE program] in
  (is_Some (accounts m !! derived) ->
     exists m',
       checkProgram env m = (Ok tt, m')
       /\ accounts m' = accounts m
       /\ submissions (trace m') = submissions (trace m))
  /\ (accounts m !! derived = None ->
      rejects env transaction = false ->
      getMinimumBalanceForRentExemption env CALCULATOR_SIZE
        <= balance (accounts m) (publicKey payerKey) ->
      exists m'',
        bind (checkProgram env) (fun _ => checkProgram env) m = (Ok tt, m'')
        /\ submissions (trace m'') =
             submissions (trace m) ++ [EvSendAndConfirmTransaction transaction [payerKey]]
        /\ exists account,
             accounts m'' !! derived = Some account
             /\ decodeState (data account) = Ok {| result := 0 |}).
Proof.
  intros Hc Hp Hfile Hprog Hexec program derived transaction. split.
  - intros [existing Hsome].
    rewrite (checkProgram_eq m conn payerKey programKey info Hc Hp Hfile Hprog Hexec).
    fold program. fold derived. rewrite Hsome.
    eexists. split; [reflexivity |]. split; [reflexivity |].
    unfold after_lookup. globals.
    rewrite <- !app_assoc. cbn [app]. rewrite submissions_app. cbn. by rewrite app_nil_r.
  - intros Hnone Hsend Hfunds.
    pose proof (checkProgram_creates m conn payerKey programKey info
                  Hc Hp Hfile Hprog Hexec Hnone) as Hfirst.
    fold program in Hfirst. fold derived in Hfirst.
    change [creation env (publicKey payerKey) program derived] with transaction in Hfirst.
    rewrite Hsend in Hfirst.
    pose proof (creation_processed (accounts m) (publicKey payerKey) program Hnone Hfunds)
      as Hdone.
    fold derived in Hdone.
    change [creation env (publicKey payerKey) program derived] with transaction in Hdone.
    rewrite Hdone in Hfirst.
    erewrite bind_Ok by exact Hfirst.
    set (created := {| data := Buffer.alloc CALCULATOR_SIZE; owner := program;
                       lamports := getMinimumBalanceForRentExemption env CALCULATOR_SIZE;
                       executable := false |}) in *.
    set (accs := <[derived := created]> _) in *.
    set (m1 := set_accounts accs _) in *.
    assert (Hne : derived <> program).
    { intros Heq. rewrite Heq in Hnone. unfold program in Hnone. congruence. }
    destruct (credit_keeps_executable (accounts m) program (publicKey payerKey)
                (- getMinimumBalanceForRentExemption env CALCULATOR_SIZE) info Hprog)
      as (info' & Hprog' & Hexec').
    assert (Hprog1 : accounts m1 !! publicKey programKey = Some info').
    { unfold m1. globals. unfold accs. rewrite lookup_insert_ne by exact Hne. exact Hprog'. }
    assert (Hderived1 : accounts m1 !! derived = Some created).
    { unfold m1. globals. unfold accs. apply lookup_insert_eq. }
    rewrite (checkProgram_eq m1 conn payerKey programKey info' Hc Hp Hfile Hprog1)
      by congruence.
    fold program. fold derived. rewrite Hderived1.
    eexists. split; [reflexivity |]. split.
    + unfold m1. unfold after_lookup. globals.
      rewrite <- !app_assoc. cbn [app]. rewrite submissions_app. reflexivity.
    + exists created. split.
      * unfold after_lookup. globals. exact Hderived1.
      * apply decodeState_zero_filled.
Qed.


(** *** [establishPayer] *)

Lemma getRecentBlockhash_connected (m : Machine) (conn : Connection) :
  connection m = Some conn ->
  connection_getRecentBlockhash env m =
    (Ok (lamportsPerSignature env), record EvGetRecentBlockhash m).
Proof.
  intros Hc. unfold connection_getRecentBlockhash. run_async. rewrite Hc. reflexivity.
Qed.

Lemma getBalance_connected (key : PublicKey) (m : Machine) (conn : Connection) :
  connection m = Some conn ->
  connection_getBalance key m = (Ok (balance (accounts m) key), record (EvGetBalance key) m).
Proof.
  intros Hc. unfold connection_getBalance. run_async. rewrite Hc. reflexivity.
Qed.

Lemma requestAirdrop_connected (key : PublicKey) (amount credited : Z) (m : Machine)
    (conn : Connection) :
  connection m = Some conn ->
  airdrop env key amount = Ok credited ->
  connection_requestAirdrop env key amount m =
    (Ok tt, set_accounts (credit key credited (accounts m))
              (record (EvRequestAirdrop key amount) m)).
Proof.
  intros Hc Ha. unfold connection_requestAirdrop. run_async. rewrite Hc, Ha. reflexivity.
Qed.

Lemma confirmTransaction_connected (sig : unit) (m : Machine) (conn : Connection) :
  connection m = Some conn ->
  connection_confirmTransaction sig m = (Ok tt, record EvConfirmTransaction m).
Proof.
  intros Hc. unfold connection_confirmTransaction. run_async. rewrite Hc. reflexivity.
Qed.

End Properties.

Lemma displayResult_absent_or_decoded_witness :
  displayResult "add" 7 5 unprovisioned_machine =
    (Throw (ThrownString "Error: cannot find the calculator account"),
     record (EvGetAccountInfo [1; 16; 2]) unprovisioned_machine)
  /\ displayResult "add" 7 5 (ready_machine [12; 0; 0]) =
       (Throw (BorshError "Reached the end of buffer when deserializing"),
        record (EvGetAccountInfo [1; 16; 2]) (ready_machine [12; 0; 0]))
  /\ displayResult "add" 7 5 (ready_machine [12; 0; 0; 0]) =
       (Ok tt, record (EvLog [result_line "add" 7 5 {| result := 12 |}])
                 (record (EvGetAccountInfo [1; 16; 2]) (ready_machine [12; 0; 0; 0]))).
Proof.
  split; [| split].
  - refine (proj1 (displayResult_absent_or_decoded "add" 7 5 unprovisioned_machine
              sample_connection [1; 16; 2] eq_refl eq_refl) _).
    reflexivity.
  - refine (proj1 (proj2 (displayResult_absent_or_decoded "add" 7 5 (ready_machine [12; 0; 0])
              sample_connection [1; 16; 2] eq_refl eq_refl)) _ _ _ _); reflexivity.
  - refine (proj2 (proj2 (displayResult_absent_or_decoded "add" 7 5 (ready_machine [12; 0; 0; 0])
              sample_connection [1; 16; 2] eq_refl eq_refl)) _ {| result := 12 |} _ _);
      reflexivity.
Defined.

(** C8, as the spec has it, fails. The faucet accepts the request but its
    airdrop credits nothing; the balance read after the airdrop, 0, is below
    the fees, 1418720, and [establishPayer] returns normally. *)
Lemma establishPayer_underfunded_returns :
  let fees := getMinimumBalanceForRentExemption dry_env CALCULATOR_SIZE
              + lamportsPerSignature dry_env * 100 in
  let '(outcome, m') := establishPayer dry_env connected_machine in
  outcome = Ok tt
  /\ balance (accounts m') (publicKey sample_payer) = 0
  /\ fees = 1418720
  /\ trace m' =
       [EvGetRecentBlockhash; EvGetMinimumBalanceForRentExemption 4; EvGetPayer;
        EvGetBalance [1]; EvRequestAirdrop [1] 1418720; EvConfirmTransaction;
        EvGetBalance [1];
        EvLog [Str "Using account"; Base58 [1]; Str "containing"; Num 2000000000;
               Str "SOL to pay for fees"]].
Proof. vm_compute. repeat split. Qed.

(** C1 fails in the code. The table has the two keys "add" and "sub" only,
    but [calculate("isPrototypeOf", 1, 1)] does not fail at the lookup:
    "isPrototypeOf" is not a key of the table, yet the lookup finds the
    function of that name inherited from [Object.prototype]; called on
    numbers it answers [false], the instruction keeps its empty data, and
    the transaction is submitted. The only error is the one that comes back
    from the cluster, after the submission. *)
Lemma calculate_inherited_name_submits :
  let '(outcome, m') := calculate sample_env "isPrototypeOf" 1 1 (ready_machine [0; 0; 0; 0]) in
  instructionMap !! "isPrototypeOf"%string = None
  /\ outcome = Throw (ExternalError "invalid instruction data")
  /\ trace m' =
       [EvLog [Str "Sending calculate request to"; Base58 [1; 16; 2]];
        EvSendAndConfirmTransaction
          [TransactionInstruction
             [{| pubkey := [1; 16; 2]; isSigner := false; isWritable := true |}]
             [2] (VBuffer [])]
          [sample_payer]].
Proof. vm_compute. repeat split. Qed.

Lemma CALCULATOR_SIZE_is_the_provisioned_size_witness :
  (exists bytes,
     encodeState (new_Calculator None) = Ok bytes
     /\ length bytes = 4%nat /\ CALCULATOR_SIZE = length bytes)
  /\ trace (snd (checkProgram sample_env funded_machine)) =
       [EvCreateKeypairFromFile "/dist/program/helloworld-keypair.json";
        EvGetAccountInfo [2];
        EvLog [Cat (Str "Using program ") (Base58 [2])];
        EvGetAccountInfo [1; 16; 2];
        creating_line [1; 16; 2];
        EvGetMinimumBalanceForRentExemption 4;
        EvSendAndConfirmTransaction
          [CreateAccountWithSeed [1] [1] "IamTheCalculator" [1; 16; 2] 918720 4 [2]]
          [sample_payer]].
Proof.
  apply (CALCULATOR_SIZE_is_the_provisioned_size sample_env funded_machine sample_connection
           sample_payer sample_program sample_program_account);
    reflexivity.
Defined.

Lemma checkProgram_idempotent_witness :
  (exists m',
     checkProgram sample_env (ready_machine [12; 0; 0; 0]) = (Ok tt, m')
     /\ accounts m' = accounts (ready_machine [12; 0; 0; 0])
     /\ submissions (trace m') = [])
  /\ (exists m'',
        bind (checkProgram sample_env) (fun _ => checkProgram sample_env) funded_machine
          = (Ok tt, m'')
        /\ submissions (trace m'') =
             [EvSendAndConfirmTransaction
                [CreateAccountWithSeed [1] [1] "IamTheCalculator" [1; 16; 2] 918720 4 [2]]
                [sample_payer]]
        /\ exists account,
             accounts m'' !! [1; 16; 2] = Some account
             /\ decodeState (data account) = Ok {| result := 0 |}).
Proof.
  split.
  - refine (proj1 (checkProgram_idempotent sample_env (ready_machine [12; 0; 0; 0])
              sample_connection sample_payer sample_program sample_program_account
              eq_refl eq_refl eq_refl _ eq_refl) _).
    + reflexivity.
    + eexists. reflexivity.
  - refine (proj2 (checkProgram_idempotent sample_env funded_machine
              sample_connection sample_payer sample_program sample_program_account
              eq_refl eq_refl eq_refl _ eq_refl) _ _ _).
    + reflexivity.
    + reflexivity.
    + reflexivity.
    + vm_compute. discriminate.
Defined.

(** ** Sample runs *)

Example createInstruction_add_7_5 :
  createInstruction "add" 7 5 = Ok [0; 7; 0; 0; 0; 5; 0; 0; 0].
Proof. vm_compute. reflexivity. Qed.

Example createInstruction_sub_max :
  createInstruction "sub" 4294967295 258 = Ok [1; 255; 255; 255; 255; 2; 1; 0; 0].
Proof. vm_compute. reflexivity. Qed.

Example createInstruction_out_of_range :
  createInstruction "add" 4294967296 0 = Throw (RangeError "ERR_OUT_OF_RANGE").
Proof. vm_compute. reflexivity. Qed.

Example CALCULATOR_SIZE_value : CALCULATOR_SIZE = 4%nat.
Proof. vm_compute. reflexivity. Qed.

(** The whole flow on the sample cluster: connect, fund the payer, create
    the account, add 7 and 5, read 12 back. *)
Example add_7_5_prints_12 :
  let flow :=
    bind (establishConnection sample_env) (fun _ =>
    bind (establishPayer sample_env) (fun _ =>
    bind (checkProgram sample_env) (fun _ =>
    bind (calculate sample_env "add" 7 5) (fun _ =>
    displayResult "add" 7 5)))) in
  let start := {| connection := None; payer := None; programId := None;
                  calculatorPubKey := None;
                  accounts := <[ [2] := sample_program_account ]> ∅;
                  trace := [] |} in
  let '(outcome, m) := flow start in
  outcome = Ok tt
  /\ last (trace m) = Some (EvLog [result_line "add" 7 5 {| result := 12 |}])
  /\ length (submissions (trace m)) = 2%nat.
Proof. vm_compute. repeat split. Qed.

(** The inherited names that reach the call: [Object] and [toString] return
    something that is no Buffer, and the library refuses to serialise it. *)
Example calculate_constructor :
  fst (calculate sample_env "constructor" 1 1 (ready_machine [0; 0; 0; 0]))
  = Throw (TypeError "Expected Buffer").
Proof. vm_compute. reflexivity. Qed.

(** * Further properties of the client *)

(** ** Rules for [keeps] *)

Section Keeps.

Context (R : Machine -> Machine -> Prop) `{!Reflexive R} `{!Transitive R}.

Lemma keeps_ret {A} (a : A) : keeps R (ret a).
Proof. intros m. simpl. reflexivity. Qed.

Lemma keeps_throw {A} (e : Error) : keeps R (@throw A e).
Proof. intros m. simpl. reflexivity. Qed.

Lemma keeps_lift {A} (r : Result A) : keeps R (lift r).
Proof. intros m. simpl. reflexivity. Qed.

Lemma keeps_gets {A} (f : Machine -> A) : keeps R (gets f).
Proof. intros m. simpl. reflexivity. Qed.

Lemma keeps_defined {A} (name : string) (f : Machine -> option A) : keeps R (defined name f).
Proof. intros m. unfold defined. destruct (f m); simpl; reflexivity. Qed.

Lemma keeps_modify (f : Machine -> Machine) : (forall m, R m (f m)) -> keeps R (modify f).
Proof. intros H m. simpl. apply H. Qed.

Lemma keeps_bind {A B} (c : M A) (k : A -> M B) :
  keeps R c -> (forall a, keeps R (k a)) -> keeps R (bind c k).
Proof.
  intros Hc Hk m. unfold bind. specialize (Hc m).
  destruct (c m) as [[a|e] m1]; simpl in *; [| exact Hc].
  etransitivity; [exact Hc | apply Hk].
Qed.

Lemma keeps_try_catch {A} (c : M A) (h : Error -> M A) :
  keeps R c -> (forall e, keeps R (h e)) -> keeps R (try_catch c h).
Proof.
  intros Hc Hh m. unfold try_catch. specialize (Hc m).
  destruct (c m) as [[a|e] m1]; simpl in *; [exact Hc |].
  etransitivity; [exact Hc | apply Hh].
Qed.

End Keeps.

#[local] Instance same_globals_reflexive : Reflexive same_globals.
Proof. intros m. unfold same_globals. auto. Qed.

#[local] Instance same_globals_transitive : Transitive same_globals.
Proof.
  intros m1 m2 m3 (?&?&?&?) (?&?&?&?). unfold same_globals.
  repeat split; congruence.
Qed.

#[local] Instance extends_reflexive (P : Event -> Prop) : Reflexive (extends P).
Proof. intros m. exists []. split; [by rewrite app_nil_r | constructor]. Qed.

#[local] Instance extends_transitive (P : Event -> Prop) : Transitive (extends P).
Proof.
  intros m1 m2 m3 (l1 & H1 & F1) (l2 & H2 & F2). exists (l1 ++ l2).
  split; [by rewrite H2, H1, app_assoc | by apply Forall_app].
Qed.

#[local] Instance same_on_reflexive {A} (f : Machine -> A) : Reflexive (same_on f).
Proof. intros m. reflexivity. Qed.

#[local] Instance same_on_transitive {A} (f : Machine -> A) : Transitive (same_on f).
Proof. intros m1 m2 m3 H1 H2. unfold same_on in *. congruence. Qed.

Lemma extends_record (P : Event -> Prop) (e : Event) (m : Machine) :
  P e -> extends P m (record e m).
Proof. intros He. exists [e]. split; [reflexivity | by constructor]. Qed.

Lemma extends_silent (P : Event -> Prop) (m m' : Machine) :
  trace m' = trace m -> extends P m m'.
Proof. intros H. exists []. split; [by rewrite app_nil_r | constructor]. Qed.

Ltac keeps_step :=
  match goal with
  | |- keeps _ (ret _) => apply keeps_ret; typeclasses eauto
  | |- keeps _ (throw _) => apply keeps_throw; typeclasses eauto
  | |- keeps _ (lift _) => apply keeps_lift; typeclasses eauto
  | |- keeps _ (gets _) => apply keeps_gets; typeclasses eauto
  | |- keeps _ (defined _ _) => apply keeps_defined; typeclasses eauto
  | |- keeps _ (bind _ _) => apply keeps_bind; try typeclasses eauto; [| intros ?]
  | |- keeps _ (try_catch _ _) => apply keeps_try_catch; try typeclasses eauto; [| intros ?]
  | |- keeps _ (modify _) => apply keeps_modify; intros ?
  | |- keeps _ (match ?x with _ => _ end) => destruct x
  end.

Ltac keeps_auto :=
  unfold console_log, emit; repeat keeps_step.


Ltac keeps_leaf :=
  first
    [ reflexivity
    | by unfold same_globals
    | apply extends_record; first [reflexivity | exact I]
    | apply extends_silent; reflexivity ].

Ltac keeps_all :=
  cbv zeta;
  unfold connection_getVersion, connection_getRecentBlockhash,
    connection_getMinimumBalanceForRentExemption, connection_getBalance,
    connection_requestAirdrop, connection_confirmTransaction, connection_getAccountInfo,
    sendAndConfirmTransaction;
  keeps_auto; keeps_leaf.

(** ** Rules for [submits_at_most] *)

Lemma submits_silent {A} (n : nat) (c : M A) :
  keeps (extends (fun e => is_submission e = false)) c -> submits_at_most n c.
Proof.
  intros Hc m. destruct (Hc m) as (events & Ht & Hnone). exists []. split; [| simpl; lia].
  rewrite Ht, submissions_app, app_nil_r. rewrite <- (app_nil_r (submissions (trace m))) at 2.
  f_equal. clear Ht. induction Hnone as [|e l He _ IH]; [reflexivity |].
  unfold submissions in *. simpl. rewrite He. exact IH.
Qed.

Lemma submits_bind_silent {A B} (n : nat) (c : M A) (k : A -> M B) :
  keeps (extends (fun e => is_submission e = false)) c ->
  (forall a, submits_at_most n (k a)) ->
  submits_at_most n (bind c k).
Proof.
  intros Hc Hk m. destruct (submits_silent 0 c Hc m) as (l0 & H0 & Hlen0).
  destruct l0; [| simpl in Hlen0; lia]. rewrite app_nil_r in H0.
  unfold bind. destruct (c m) as [[a|e] m1]; simpl in H0.
  - destruct (Hk a m1) as (l & Hl & Hlen). exists l. by rewrite Hl, H0.
  - exists []. simpl. rewrite H0, app_nil_r. split; [reflexivity | lia].
Qed.

Lemma sendAndConfirmTransaction_submits_once (env : Env) (transaction : Transaction)
    (signers : list (option Keypair)) :
  submits_at_most 1 (sendAndConfirmTransaction env transaction signers).
Proof.
  intros m. unfold sendAndConfirmTransaction.
  assert (Hnone : exists sent, submissions (trace m) = submissions (trace m) ++ sent
                               /\ (length sent <= 1)%nat).
  { exists []. split; [by rewrite app_nil_r | simpl; lia]. }
  unfold bind at 1. unfold defined.
  destruct (connection m); [| exact Hnone].
  destruct (mapM id signers) as [keys|]; [| exact Hnone].
  destruct (forallb serialisable transaction); [| exact Hnone].
  exists [EvSendAndConfirmTransaction transaction keys]. split; [| simpl; lia].
  unfold emit. run_async. cbv beta iota.
  destruct (rejects env transaction); cbv beta; globals;
    [| destruct (process_transaction env transaction (accounts m))];
    cbn [snd]; globals; rewrite submissions_app; reflexivity.
Qed.

Ltac submits_auto :=
  cbv zeta;
  repeat match goal with
    | |- submits_at_most _ (bind _ _) =>
        apply submits_bind_silent; [keeps_all | intros ?]
    | |- submits_at_most _ (match ?x with _ => _ end) => destruct x
    | |- submits_at_most _ (sendAndConfirmTransaction _ _ _) =>
        apply sendAndConfirmTransaction_submits_once
    | |- submits_at_most _ _ => apply submits_silent; keeps_all
    end.

(** ** The codecs, further *)

Lemma le_value_range (bytes : list Z) :
  Buffer.wf bytes -> 0 <= Buffer.le_value bytes < 2 ^ (8 * Z.of_nat (length bytes)).
Proof.
  induction 1 as [|b rest Hb _ IH]; simpl length.
  - simpl. lia.
  - cbn [Buffer.le_value].
    replace (8 * Z.of_nat (S (length rest))) with (8 + 8 * Z.of_nat (length rest)) by lia.
    rewrite Z.pow_add_r by lia. change (2 ^ 8) with 256. nia.
Qed.

Lemma le_bytes_le_value (bytes : list Z) :
  Buffer.wf bytes -> Buffer.le_bytes (length bytes) (Buffer.le_value bytes) = bytes.
Proof.
  induction 1 as [|b rest Hb Hrest IH]; [reflexivity |].
  cbn [length Buffer.le_value Buffer.le_bytes].
  rewrite land_255, Z.shiftr_div_pow2 by lia. change (2 ^ 8) with 256.
  set (v := Buffer.le_value rest) in *.
  replace (b + 256 * v) with (b + v * 256) by lia.
  rewrite Z.mod_add, Z.div_add by lia.
  rewrite Z.mod_small, Z.div_small by lia.
  rewrite Z.add_0_l. f_equal. exact IH.
Qed.

Lemma writeUIntLE_out_of_range (v : Z) (offset k : nat) (buf : Buffer.t) :
  ~ 0 <= v < 2 ^ (8 * Z.of_nat k) ->
  Buffer.writeUIntLE v offset k buf = Throw (RangeError "ERR_OUT_OF_RANGE").
Proof.
  intros Hv. unfold Buffer.writeUIntLE. rewrite decide_False by lia. reflexivity.
Qed.

Lemma createInstruction_out_of_range_eq (operation : string) (num1 num2 : Z) :
  ~ (0 <= num1 < 2 ^ 32 /\ 0 <= num2 < 2 ^ 32) ->
  createInstruction operation num1 num2 = Throw (RangeError "ERR_OUT_OF_RANGE").
Proof.
  intros Hout. unfold createInstruction, BufferLayout.encode, Settings_layout.
  cbn [BufferLayout.fields BufferLayout.encode_fields BufferLayout.u8 BufferLayout.u32
       BufferLayout.property BufferLayout.span BufferLayout.UInt_encode].
  replace (Settings _ num1 num2 !! "instruction"%string) with (Some (opcode operation))
    by (unfold Settings; by simplify_map_eq).
  replace (Settings _ num1 num2 !! "num1"%string) with (Some num1)
    by (unfold Settings; by simplify_map_eq).
  replace (Settings _ num1 num2 !! "num2"%string) with (Some num2)
    by (unfold Settings; by simplify_map_eq).
  unfold BufferLayout.UInt_encode, BufferLayout.u8, BufferLayout.u32.
  cbn [BufferLayout.span].
  change (Buffer.alloc _) with (replicate 9 0).
  rewrite writeUIntLE_in_range; [| unfold opcode; destruct (String.eqb _ _); simpl; lia | simpl; lia].
  destruct (decide (0 <= num1 < 2 ^ 32)) as [H1|H1].
  - rewrite writeUIntLE_in_range; [| simpl; lia | rewrite length_inserts; simpl; lia].
    rewrite writeUIntLE_out_of_range; [reflexivity | simpl; lia].
  - rewrite writeUIntLE_out_of_range; [reflexivity | simpl; lia].
Qed.

(** X1. On integer operands [createInstruction] checks the range and
    nothing else: whatever the operation name, it returns nine bytes when
    both integers lie in [0, 2^32) and throws a [RangeError] when either
    does not; an integer that does not fit is never reduced modulo 2^32. *)
Theorem createInstruction_range_check (operation : string) (num1 num2 : Z) :
  (0 <= num1 < 2 ^ 32 /\ 0 <= num2 < 2 ^ 32 ->
     exists data, createInstruction operation num1 num2 = Ok data /\ length data = 9%nat)
  /\ (~ (0 <= num1 < 2 ^ 32 /\ 0 <= num2 < 2 ^ 32) ->
      createInstruction operation num1 num2 = Throw (RangeError "ERR_OUT_OF_RANGE")).
Proof.
  split.
  - intros [H1 H2]. eexists. split; [by apply createInstruction_bytes |].
    cbn [length]. rewrite length_app, !le_bytes_length. reflexivity.
  - apply createInstruction_out_of_range_eq.
Qed.

Lemma createInstruction_range_check_witness :
  (exists data, createInstruction "add" 0 4294967295 = Ok data /\ length data = 9%nat)
  /\ createInstruction "sub" 7 (-1) = Throw (RangeError "ERR_OUT_OF_RANGE")
  /\ createInstruction "add" 4294967296 5 = Throw (RangeError "ERR_OUT_OF_RANGE").
Proof.
  split; [| split].
  - apply (createInstruction_range_check "add" 0 4294967295). lia.
  - apply (createInstruction_range_check "sub" 7 (-1)). lia.
  - apply (createInstruction_range_check "add" 4294967296 5). lia.
Defined.

(** X2. On unsigned 32-bit integer operands the request encoding loses
    the operands never and the operation name only up to "add" or not: two
    requests are encoded to the same bytes exactly when they have the same
    first operand, the same second operand, and either both name "add" or
    neither does. *)
Theorem createInstruction_injective (operation operation' : string)
    (num1 num2 num1' num2' : Z) :
  0 <= num1 < 2 ^ 32 -> 0 <= num2 < 2 ^ 32 ->
  0 <= num1' < 2 ^ 32 -> 0 <= num2' < 2 ^ 32 ->
  createInstruction operation num1 num2 = createInstruction operation' num1' num2'
  <-> (operation = "add"%string <-> operation' = "add"%string)
      /\ num1 = num1' /\ num2 = num2'.
Proof.
  intros H1 H2 H1' H2'.
  rewrite !createInstruction_bytes by assumption.
  split.
  - intros Heq.
    remember (Buffer.le_bytes 4 num1) as b1 eqn:E1.
    remember (Buffer.le_bytes 4 num2) as b2 eqn:E2.
    remember (Buffer.le_bytes 4 num1') as b1' eqn:E1'.
    remember (Buffer.le_bytes 4 num2') as b2' eqn:E2'.
    injection Heq as Hop Hrest.
    apply app_inj_1 in Hrest as [Ha Hb]; [| subst; by rewrite !le_bytes_length].
    apply (f_equal Buffer.le_value) in Ha, Hb. subst b1 b2 b1' b2'.
    rewrite !le_value_le_bytes in Ha, Hb by (simpl; lia).
    split; [| by split].
    unfold opcode in Hop.
    destruct (String.eqb_spec operation "add"), (String.eqb_spec operation' "add");
      try discriminate; tauto.
  - intros [Hop [<- <-]].
    replace (opcode operation') with (opcode operation); [reflexivity |].
    unfold opcode.
    destruct (String.eqb_spec operation "add"), (String.eqb_spec operation' "add");
      tauto.
Qed.

Lemma createInstruction_injective_witness :
  (createInstruction "sub" 7 5 = createInstruction "mul" 7 5
   <-> ("sub"%string = "add"%string <-> "mul"%string = "add"%string) /\ 7 = 7 /\ 5 = 5)
  /\ (createInstruction "add" 7 5 = createInstruction "sub" 7 5
      <-> ("add"%string = "add"%string <-> "sub"%string = "add"%string) /\ 7 = 7 /\ 5 = 5)
  /\ (createInstruction "add" 7 5 = createInstruction "add" 5 7
      <-> ("add"%string = "add"%string <-> "add"%string = "add"%string) /\ 7 = 5 /\ 5 = 7).
Proof.
  split; [| split].
  - apply (createInstruction_injective "sub" "mul" 7 5 7 5); lia.
  - apply (createInstruction_injective "add" "sub" 7 5 7 5); lia.
  - apply (createInstruction_injective "add" "add" 7 5 5 7); lia.
Defined.

(** X3. The state codec round-trips in the other direction too: a buffer of
    four bytes decodes to a record whose result is an unsigned 32-bit
    number, and encoding that record gives the same four bytes back. *)
Theorem encodeState_decodeState (buffer : Buffer.t) :
  length buffer = 4%nat -> Buffer.wf buffer ->
  exists calculator,
    decodeState buffer = Ok calculator
    /\ 0 <= result calculator < 2 ^ 32
    /\ encodeState calculator = Ok buffer.
Proof.
  intros Hlen Hwf. exists {| result := Buffer.le_value buffer |}.
  pose proof (le_value_range buffer Hwf) as Hrange. rewrite Hlen in Hrange.
  split; [by apply decodeState_4 |]. split; [exact Hrange |].
  rewrite encodeState_bytes by exact Hrange.
  rewrite <- Hlen at 1. by rewrite le_bytes_le_value.
Qed.

Lemma encodeState_decodeState_witness :
  exists calculator,
    decodeState [120; 86; 52; 18] = Ok calculator
    /\ 0 <= result calculator < 2 ^ 32
    /\ encodeState calculator = Ok [120; 86; 52; 18].
Proof.
  apply (encodeState_decodeState [120; 86; 52; 18]); [reflexivity |].
  repeat (constructor; [lia |]). constructor.
Defined.

(** ** [establishPayer], case by case *)

Lemma bind_Throw {A B} (c : M A) (k : A -> M B) (m m' : Machine) (e : Error) :
  c m = (Throw e, m') -> bind c k m = (Throw e, m').
Proof. intros H. unfold bind. rewrite H. reflexivity. Qed.

Section Payer.

Variable env : Env.

Lemma establishPayer_rest_eq (fees : Z) (m : Machine) (conn : Connection) (payerKey : Keypair) :
  connection m = Some conn ->
  payer m = Some payerKey ->
  establishPayer_rest env fees m =
    let key := publicKey payerKey in
    let lamports := balance (accounts m) key in
    let asked := record (EvGetBalance key) m in
    if lamports <? fees then
      match airdrop env key (fees - lamports) with
      | Ok credited =>
          (Ok tt,
           record (EvLog (using_line key))
             (record (EvGetBalance key)
                (record EvConfirmTransaction
                   (set_accounts (credit key credited (accounts m))
                      (record (EvRequestAirdrop key (fees - lamports)) asked)))))
      | Throw e => (Throw e, record (EvRequestAirdrop key (fees - lamports)) asked)
      end
    else (Ok tt, record (EvLog (using_line key)) asked).
Proof.
  intros Hc Hp. cbv zeta. unfold establishPayer_rest.
  erewrite bind_Ok; cycle 1.
  { unfold defined. rewrite Hp. reflexivity. }
  erewrite bind_Ok; cycle 1.
  { apply getBalance_connected with conn. exact Hc. }
  destruct (balance (accounts m) (publicKey payerKey) <? fees); cycle 1.
  { erewrite bind_Ok; cycle 1.
    { reflexivity. }
    reflexivity. }
  destruct (airdrop env _ _) as [credited|e] eqn:Ha.
  - erewrite bind_Ok; cycle 1.
    { erewrite bind_Ok; cycle 1.
      { apply requestAirdrop_connected with conn; [exact Hc | exact Ha]. }
      erewrite bind_Ok; cycle 1.
      { apply confirmTransaction_connected with conn. exact Hc. }
      apply getBalance_connected with conn. exact Hc. }
    reflexivity.
  - erewrite bind_Throw; [reflexivity |].
    erewrite bind_Throw; [reflexivity |].
    unfold connection_requestAirdrop.
    erewrite bind_Ok; cycle 1.
    { unfold defined. globals. rewrite Hc. reflexivity. }
    erewrite bind_Ok; cycle 1.
    { reflexivity. }
    erewrite bind_Throw; [reflexivity |].
    unfold lift. rewrite Ha. reflexivity.
Qed.

Lemma establishPayer_loaded (m : Machine) (payerKey : Keypair) :
  payer m = Some payerKey ->
  establishPayer env m = establishPayer_rest env 0 m.
Proof.
  intros Hp. unfold establishPayer.
  erewrite bind_Ok; cycle 1.
  { reflexivity. }
  rewrite Hp.
  erewrite bind_Ok; cycle 1.
  { reflexivity. }
  reflexivity.
Qed.

(** The state in which [establishPayer] has just loaded the payer. *)
Lemma establishPayer_loading (m : Machine) (conn : Connection) :
  connection m = Some conn ->
  payer m = None ->
  establishPayer env m =
    let queried :=
      record EvGetPayer
        (record (EvGetMinimumBalanceForRentExemption CALCULATOR_SIZE)
           (record EvGetRecentBlockhash m)) in
    match getPayer env with
    | Ok payerKey => establishPayer_rest env (first_fees env) (set_payer payerKey queried)
    | Throw e => (Throw e, queried)
    end.
Proof.
  intros Hc Hp. cbv zeta. unfold establishPayer.
  erewrite bind_Ok; cycle 1.
  { reflexivity. }
  rewrite Hp.
  destruct (getPayer env) as [payerKey|e] eqn:Hg.
  - erewrite bind_Ok; cycle 1.
    { erewrite bind_Ok; cycle 1.
      { apply getRecentBlockhash_connected with conn. exact Hc. }
      erewrite bind_Ok; cycle 1.
      { apply getMinimumBalance_connected with conn. exact Hc. }
      erewrite bind_Ok; cycle 1.
      { reflexivity. }
      erewrite bind_Ok; cycle 1.
      { reflexivity. }
      erewrite bind_Ok; cycle 1.
      { reflexivity. }
      reflexivity. }
    reflexivity.
  - erewrite bind_Throw; [reflexivity |].
    erewrite bind_Ok; cycle 1.
    { apply getRecentBlockhash_connected with conn. exact Hc. }
    erewrite bind_Ok; cycle 1.
    { apply getMinimumBalance_connected with conn. exact Hc. }
    erewrite bind_Ok; cycle 1.
    { reflexivity. }
    erewrite bind_Throw; reflexivity.
Qed.

Lemma establishPayer_disconnected (m : Machine) :
  connection m = None ->
  establishPayer env m =
    (Throw (TypeError "Cannot read properties of undefined: connection"), m).
Proof.
  intros Hc. unfold establishPayer.
  erewrite bind_Ok; cycle 1.
  { reflexivity. }
  destruct (payer m) as [payerKey|] eqn:Hp.
  - erewrite bind_Ok; cycle 1.
    { reflexivity. }
    erewrite bind_Ok; cycle 1.
    { unfold defined. rewrite Hp. reflexivity. }
    erewrite bind_Throw; [reflexivity |].
    unfold connection_getBalance.
    erewrite bind_Throw; [reflexivity |].
    unfold defined. rewrite Hc. reflexivity.
  - erewrite bind_Throw; [reflexivity |].
    erewrite bind_Throw; [reflexivity |].
    unfold connection_getRecentBlockhash.
    erewrite bind_Throw; [reflexivity |].
    unfold defined. rewrite Hc. reflexivity.
Qed.


Lemma balance_credit (accs : gmap PublicKey AccountInfo) (key : PublicKey) (amount : Z) :
  balance (credit key amount accs) key = balance accs key + amount.
Proof.
  unfold balance, credit.
  destruct (accs !! key) as [info|]; rewrite lookup_insert_eq; reflexivity.
Qed.

(** C8, as the code has it. [establishPayer] has no failure for
    insufficient funds. On the call that loads the payer, with a balance
    below the fees, it requests one airdrop of the missing amount, confirms
    it and reads the balance again; that second balance is not compared
    with anything. When it is still below the fees, what follows is the
    log line and a normal return: the payer is set and the balance is left
    below the fees. *)
Theorem establishPayer_no_funds_check (m : Machine) (conn : Connection) (payerKey : Keypair)
    (credited : Z) :
  connection m = Some conn ->
  payer m = None ->
  getPayer env = Ok payerKey ->
  let key := publicKey payerKey in
  let fees := getMinimumBalanceForRentExemption env CALCULATOR_SIZE
              + lamportsPerSignature env * 100 in
  let lamports := balance (accounts m) key in
  lamports < fees ->
  airdrop env key (fees - lamports) = Ok credited ->
  lamports + credited < fees ->
  exists m',
    establishPayer env m = (Ok tt, m')
    /\ trace m' =
         trace m ++
           [EvGetRecentBlockhash; EvGetMinimumBalanceForRentExemption CALCULATOR_SIZE;
            EvGetPayer; EvGetBalance key; EvRequestAirdrop key (fees - lamports);
            EvConfirmTransaction; EvGetBalance key;
            EvLog [Str "Using account"; Base58 key; Str "containing"; Num 2000000000;
                   Str "SOL to pay for fees"]]
    /\ payer m' = Some payerKey
    /\ balance (accounts m') key = lamports + credited
    /\ balance (accounts m') key < fees.
Proof.
  intros Hc Hp Hg key fees lamports Hlt Ha Hshort.
  rewrite (establishPayer_loading m conn Hc Hp). cbv zeta. rewrite Hg.
  rewrite (establishPayer_rest_eq _ _ conn payerKey) by (first [exact Hc | reflexivity]).
  cbv zeta. globals. fold key. fold lamports. change (first_fees env) with fees.
  destruct (Z.ltb_spec lamports fees); [| lia].
  rewrite Ha. eexists. split; [reflexivity |].
  globals. rewrite balance_credit. fold lamports.
  repeat split; [| exact Hshort].
  rewrite <- !app_assoc. reflexivity.
Qed.

(** X4. The first call of [establishPayer]. The fee and the rent for
    [CALCULATOR_SIZE] are queried, the payer is loaded, and its balance is
    compared with the fees, the rent plus a hundred signatures: at or above
    the fees nothing is requested; below them one airdrop is requested, for
    exactly the missing amount, and whatever it credits is added to the
    payer's account. *)
Theorem establishPayer_first_call (m : Machine) (conn : Connection) (payerKey : Keypair) :
  connection m = Some conn ->
  payer m = None ->
  getPayer env = Ok payerKey ->
  let key := publicKey payerKey in
  let fees := getMinimumBalanceForRentExemption env CALCULATOR_SIZE
              + lamportsPerSignature env * 100 in
  let lamports := balance (accounts m) key in
  let loaded :=
    record (EvGetBalance key)
      (set_payer payerKey
         (record EvGetPayer
            (record (EvGetMinimumBalanceForRentExemption CALCULATOR_SIZE)
               (record EvGetRecentBlockhash m)))) in
  (fees <= lamports ->
     establishPayer env m = (Ok tt, record (EvLog (using_line key)) loaded))
  /\ (lamports < fees ->
      forall credited, airdrop env key (fees - lamports) = Ok credited ->
      establishPayer env m =
        (Ok tt,
         record (EvLog (using_line key))
           (record (EvGetBalance key)
              (record EvConfirmTransaction
                 (set_accounts (credit key credited (accounts m))
                    (record (EvRequestAirdrop key (fees - lamports)) loaded)))))).
Proof.
  intros Hc Hp Hg key fees lamports loaded.
  rewrite (establishPayer_loading m conn Hc Hp). cbv zeta. rewrite Hg.
  rewrite (establishPayer_rest_eq _ _ conn payerKey) by (first [exact Hc | reflexivity]).
  cbv zeta. globals. fold key. fold lamports. change (first_fees env) with fees.
  split.
  - intros Hle. destruct (Z.ltb_spec lamports fees); [lia | reflexivity].
  - intros Hlt credited Ha. destruct (Z.ltb_spec lamports fees); [| lia].
    rewrite Ha. reflexivity.
Qed.

(** X5. A later call of [establishPayer]. With the payer already set the
    fees are 0: nothing is queried but the balance, the payer is not loaded
    again, and no airdrop is requested. *)
Theorem establishPayer_again (m : Machine) (conn : Connection) (payerKey : Keypair) :
  connection m = Some conn ->
  payer m = Some payerKey ->
  0 <= balance (accounts m) (publicKey payerKey) ->
  establishPayer env m =
    (Ok tt, record (EvLog (using_line (publicKey payerKey)))
              (record (EvGetBalance (publicKey payerKey)) m)).
Proof.
  intros Hc Hp Hbal.
  rewrite (establishPayer_loaded m payerKey Hp).
  rewrite (establishPayer_rest_eq 0 m conn payerKey Hc Hp). cbv zeta.
  destruct (Z.ltb_spec (balance (accounts m) (publicKey payerKey)) 0); [lia | reflexivity].
Qed.

(** X6. Errors of the collaborators leave [establishPayer] unchanged. When
    the payer cannot be loaded the error is rethrown after the two fee
    queries, with the payer still unset. When the faucet turns the request
    down its error is rethrown with the payer already set; in both cases the
    accounts are untouched. *)
Theorem establishPayer_rethrows (m : Machine) (conn : Connection) :
  connection m = Some conn ->
  payer m = None ->
  (forall e, getPayer env = Throw e ->
     exists m',
       establishPayer env m = (Throw e, m')
       /\ payer m' = None /\ accounts m' = accounts m
       /\ trace m' = trace m ++ [EvGetRecentBlockhash;
                                 EvGetMinimumBalanceForRentExemption CALCULATOR_SIZE;
                                 EvGetPayer])
  /\ (forall payerKey e,
        getPayer env = Ok payerKey ->
        let key := publicKey payerKey in
        let fees := getMinimumBalanceForRentExemption env CALCULATOR_SIZE
                    + lamportsPerSignature env * 100 in
        balance (accounts m) key < fees ->
        airdrop env key (fees - balance (accounts m) key) = Throw e ->
        exists m',
          establishPayer env m = (Throw e, m')
          /\ payer m' = Some payerKey /\ accounts m' = accounts m).
Proof.
  intros Hc Hp. split.
  - intros e Hg. rewrite (establishPayer_loading m conn Hc Hp). cbv zeta. rewrite Hg.
    eexists. split; [reflexivity |]. globals.
    split; [exact Hp |]. split; [reflexivity |]. by rewrite <- !app_assoc.
  - intros payerKey e Hg key fees Hlt Ha.
    rewrite (establishPayer_loading m conn Hc Hp). cbv zeta. rewrite Hg.
    rewrite (establishPayer_rest_eq _ _ conn payerKey) by (first [exact Hc | reflexivity]).
    cbv zeta. globals. fold key. change (first_fees env) with fees.
    destruct (Z.ltb_spec (balance (accounts m) key) fees); [| lia].
    rewrite Ha. eexists. split; [reflexivity |]. globals. split; reflexivity.
Qed.

(** X7. What a successful [establishPayer] leaves behind: the payer is set,
    it is the payer that was set before if there was one, and the last thing
    done is the log line, which names that payer and always announces
    [2 * LAMPORTS_PER_SOL], not the balance. *)
Theorem establishPayer_success (m m' : Machine) :
  establishPayer env m = (Ok tt, m') ->
  exists payerKey,
    payer m' = Some payerKey
    /\ (forall previous, payer m = Some previous -> previous = payerKey)
    /\ last (trace m') =
         Some (EvLog [Str "Using account"; Base58 (publicKey payerKey); Str "containing";
                      Num 2000000000; Str "SOL to pay for fees"]).
Proof.
  intros Hrun.
  destruct (connection m) as [conn|] eqn:Hc;
    [| rewrite establishPayer_disconnected in Hrun by exact Hc; discriminate Hrun].
  destruct (payer m) as [payerKey|] eqn:Hp.
  - rewrite (establishPayer_loaded m payerKey Hp) in Hrun.
    rewrite (establishPayer_rest_eq 0 m conn payerKey Hc Hp) in Hrun. cbv zeta in Hrun.
    exists payerKey.
    destruct (_ <? _); [destruct (airdrop env _ _) |];
      inversion Hrun; subst m'; globals;
      (split; [exact Hp |]); (split; [by intros ? [= ->] |]); apply last_snoc.
  - rewrite (establishPayer_loading m conn Hc Hp) in Hrun. cbv zeta in Hrun.
    destruct (getPayer env) as [payerKey|]; [| discriminate Hrun].
    rewrite (establishPayer_rest_eq _ _ conn payerKey) in Hrun by (first [exact Hc | reflexivity]).
    cbv zeta in Hrun. exists payerKey.
    destruct (_ <? _); [destruct (airdrop env _ _) |];
      inversion Hrun; subst m'; globals;
      (split; [reflexivity |]); (split; [discriminate |]); apply last_snoc.
Qed.

End Payer.

Lemma establishPayer_no_funds_check_witness :
  exists m',
    establishPayer dry_env connected_machine = (Ok tt, m')
    /\ trace m' =
         trace connected_machine ++
           [EvGetRecentBlockhash; EvGetMinimumBalanceForRentExemption CALCULATOR_SIZE;
            EvGetPayer; EvGetBalance [1]; EvRequestAirdrop [1] (1418720 - 0);
            EvConfirmTransaction; EvGetBalance [1];
            EvLog [Str "Using account"; Base58 [1]; Str "containing"; Num 2000000000;
                   Str "SOL to pay for fees"]]
    /\ payer m' = Some sample_payer
    /\ balance (accounts m') [1] = 0 + 0
    /\ balance (accounts m') [1] < 1418720.
Proof.
  apply (establishPayer_no_funds_check dry_env connected_machine sample_connection
           sample_payer 0); [reflexivity | reflexivity | reflexivity | | reflexivity |].
  - vm_compute. reflexivity.
  - vm_compute. reflexivity.
Defined.

Lemma establishPayer_first_call_witness :
  establishPayer sample_env endowed_machine =
    (Ok tt,
     record (EvLog (using_line [1]))
       (record (EvGetBalance [1])
          (set_payer sample_payer
             (record EvGetPayer
                (record (EvGetMinimumBalanceForRentExemption CALCULATOR_SIZE)
                   (record EvGetRecentBlockhash endowed_machine))))))
  /\ establishPayer sample_env connected_machine =
       (Ok tt,
        record (EvLog (using_line [1]))
          (record (EvGetBalance [1])
             (record EvConfirmTransaction
                (set_accounts (credit [1] 1418720 (accounts connected_machine))
                   (record (EvRequestAirdrop [1] (1418720 - 0))
                      (record (EvGetBalance [1])
                         (set_payer sample_payer
                            (record EvGetPayer
                               (record (EvGetMinimumBalanceForRentExemption CALCULATOR_SIZE)
                                  (record EvGetRecentBlockhash connected_machine)))))))))).
Proof.
  split.
  - refine (proj1 (establishPayer_first_call sample_env endowed_machine sample_connection
              sample_payer eq_refl eq_refl eq_refl) _).
    vm_compute. discriminate.
  - refine (proj2 (establishPayer_first_call sample_env connected_machine sample_connection
              sample_payer eq_refl eq_refl eq_refl) _ 1418720 _).
    + reflexivity.
    + reflexivity.
Defined.

Lemma establishPayer_again_witness :
  establishPayer sample_env funded_machine =
    (Ok tt, record (EvLog (using_line [1])) (record (EvGetBalance [1]) funded_machine)).
Proof.
  apply (establishPayer_again sample_env funded_machine sample_connection sample_payer);
    [reflexivity | reflexivity | vm_compute; discriminate].
Defined.

Lemma establishPayer_rethrows_witness :
  (exists m',
     establishPayer no_payer_env connected_machine = (Throw (PlainError "no keypair"), m')
     /\ payer m' = None /\ accounts m' = accounts connected_machine
     /\ trace m' = [EvGetRecentBlockhash; EvGetMinimumBalanceForRentExemption CALCULATOR_SIZE;
                    EvGetPayer])
  /\ (exists m',
        establishPayer closed_faucet_env connected_machine
          = (Throw (ExternalError "airdrop limit"), m')
        /\ payer m' = Some sample_payer /\ accounts m' = accounts connected_machine).
Proof.
  split.
  - refine (proj1 (establishPayer_rethrows no_payer_env connected_machine sample_connection
              eq_refl eq_refl) (PlainError "no keypair") eq_refl).
  - refine (proj2 (establishPayer_rethrows closed_faucet_env connected_machine sample_connection
              eq_refl eq_refl) sample_payer (ExternalError "airdrop limit") eq_refl _ eq_refl).
    reflexivity.
Defined.

Lemma establishPayer_success_witness :
  exists payerKey,
    payer (snd (establishPayer dry_env connected_machine)) = Some payerKey
    /\ (forall previous, payer connected_machine = Some previous -> previous = payerKey)
    /\ last (trace (snd (establishPayer dry_env connected_machine))) =
         Some (EvLog [Str "Using account"; Base58 (publicKey payerKey); Str "containing";
                      Num 2000000000; Str "SOL to pay for fees"]).
Proof.
  apply (establishPayer_success dry_env connected_machine). reflexivity.
Defined.

(** ** [establishConnection] *)

Section Connecting.

Variable env : Env.

(** X8. [establishConnection] assigns the connection after the URL has
    been obtained and the constructor has accepted it, and before it asks for
    the version. When the URL cannot be obtained, or the constructor refuses
    it with its [TypeError], nothing is assigned and the version is not
    queried. When the version query fails its error is rethrown, and the new
    connection, with commitment "confirmed", is in place all the same,
    whatever connection there was before. *)
Theorem establishConnection_outcomes (m : Machine) :
  (forall e, getRpcUrl env = Throw e ->
     establishConnection env m = (Throw e, record EvGetRpcUrl m))
  /\ (forall url, getRpcUrl env = Ok url -> endpoint_accepted env url = false ->
      exists msg, establishConnection env m = (Throw (TypeError msg), record EvGetRpcUrl m))
  /\ (forall url, getRpcUrl env = Ok url -> endpoint_accepted env url = true ->
      let connected :=
        record EvGetVersion
          (set_connection {| rpcUrl := url; commitment := "confirmed" |}
             (record EvGetRpcUrl m)) in
      establishConnection env m =
        match getVersion env with
        | Ok version =>
            (Ok tt, record (EvLog [Str "Connection to cluster established:"; Str version])
                      connected)
        | Throw e => (Throw e, connected)
        end).
Proof.
  split; [| split].
  - intros e Hurl. unfold establishConnection.
    erewrite bind_Ok; cycle 1.
    { reflexivity. }
    erewrite bind_Throw; [reflexivity |].
    unfold lift. rewrite Hurl. reflexivity.
  - intros url Hurl Hbad. unfold establishConnection.
    erewrite bind_Ok; cycle 1.
    { reflexivity. }
    erewrite bind_Ok; cycle 1.
    { unfold lift. rewrite Hurl. reflexivity. }
    eexists. erewrite bind_Throw; [reflexivity |].
    unfold lift, new_Connection. rewrite Hbad. reflexivity.
  - intros url Hurl Hgood connected. unfold establishConnection.
    erewrite bind_Ok; cycle 1.
    { reflexivity. }
    erewrite bind_Ok; cycle 1.
    { unfold lift. rewrite Hurl. reflexivity. }
    erewrite bind_Ok; cycle 1.
    { unfold lift, new_Connection. rewrite Hgood. reflexivity. }
    erewrite bind_Ok; cycle 1.
    { reflexivity. }
    unfold connection_getVersion.
    destruct (getVersion env) as [version|e] eqn:Hv.
    + erewrite bind_Ok; cycle 1.
      { erewrite bind_Ok; cycle 1.
        { unfold defined. globals. reflexivity. }
        erewrite bind_Ok; cycle 1.
        { reflexivity. }
        reflexivity. }
      reflexivity.
    + erewrite bind_Throw; [reflexivity |].
      erewrite bind_Ok; cycle 1.
      { unfold defined. globals. reflexivity. }
      erewrite bind_Ok; cycle 1.
      { reflexivity. }
      reflexivity.
Qed.

End Connecting.

Lemma establishConnection_outcomes_witness :
  establishConnection no_url_env blank_machine
    = (Throw (PlainError "no config"), record EvGetRpcUrl blank_machine)
  /\ (exists msg,
        establishConnection bad_url_env funded_machine
          = (Throw (TypeError msg), record EvGetRpcUrl funded_machine))
  /\ establishConnection no_version_env funded_machine
     = (Throw (ExternalError "fetch failed"),
        record EvGetVersion
          (set_connection {| rpcUrl := "http://127.0.0.1:8899"; commitment := "confirmed" |}
             (record EvGetRpcUrl funded_machine)))
  /\ establishConnection sample_env blank_machine
     = (Ok tt,
        record (EvLog [Str "Connection to cluster established:"; Str "1.10"])
          (record EvGetVersion
             (set_connection {| rpcUrl := "http://127.0.0.1:8899"; commitment := "confirmed" |}
                (record EvGetRpcUrl blank_machine)))).
Proof.
  split; [| split; [| split]].
  - exact (proj1 (establishConnection_outcomes no_url_env blank_machine)
             (PlainError "no config") eq_refl).
  - exact (proj1 (proj2 (establishConnection_outcomes bad_url_env funded_machine))
             "127.0.0.1:8899"%string eq_refl eq_refl).
  - exact (proj2 (proj2 (establishConnection_outcomes no_version_env funded_machine))
             "http://127.0.0.1:8899"%string eq_refl eq_refl).
  - exact (proj2 (proj2 (establishConnection_outcomes sample_env blank_machine))
             "http://127.0.0.1:8899"%string eq_refl eq_refl).
Defined.

(** ** [checkProgram], case by case *)

Section Checking.

Variable env : Env.

(** The state of [checkProgram] once the keypair file has been read. *)
Lemma checkProgram_read (m : Machine) (programKey : Keypair) :
  createKeypairFromFile env (PROGRAM_KEYPAIR_PATH env) = Ok programKey ->
  try_catch
    (bind (emit (EvCreateKeypairFromFile (PROGRAM_KEYPAIR_PATH env))) (fun _ =>
     bind (lift (createKeypairFromFile env (PROGRAM_KEYPAIR_PATH env))) (fun programKeypair =>
     modify (set_programId (publicKey programKeypair)))))
    (fun err => throw (keypair_failure env err)) m
  = (Ok tt, set_programId (publicKey programKey)
              (record (EvCreateKeypairFromFile (PROGRAM_KEYPAIR_PATH env)) m)).
Proof.
  intros Hfile. unfold try_catch, bind, emit, modify, lift. rewrite Hfile. reflexivity.
Qed.

Lemma checkProgram_unreadable (m : Machine) (e : Error) :
  createKeypairFromFile env (PROGRAM_KEYPAIR_PATH env) = Throw e ->
  checkProgram env m =
    (Throw (keypair_failure env e), record (EvCreateKeypairFromFile (PROGRAM_KEYPAIR_PATH env)) m).
Proof.
  intros Hfile. unfold checkProgram.
  erewrite bind_Throw; [reflexivity |].
  unfold try_catch, bind, emit, modify, lift, throw. rewrite Hfile. reflexivity.
Qed.

Lemma checkProgram_disconnected (m : Machine) (programKey : Keypair) :
  connection m = None ->
  createKeypairFromFile env (PROGRAM_KEYPAIR_PATH env) = Ok programKey ->
  checkProgram env m =
    (Throw (TypeError "Cannot read properties of undefined: connection"),
     set_programId (publicKey programKey)
       (record (EvCreateKeypairFromFile (PROGRAM_KEYPAIR_PATH env)) m)).
Proof.
  intros Hc Hfile. unfold checkProgram.
  erewrite bind_Ok; cycle 1.
  { apply checkProgram_read. exact Hfile. }
  erewrite bind_Ok; cycle 1.
  { unfold defined. globals. reflexivity. }
  erewrite bind_Throw; [reflexivity |].
  unfold connection_getAccountInfo.
  erewrite bind_Throw; [reflexivity |].
  unfold defined. globals. rewrite Hc. reflexivity.
Qed.

Lemma checkProgram_missing (m : Machine) (conn : Connection) (programKey : Keypair) :
  connection m = Some conn ->
  createKeypairFromFile env (PROGRAM_KEYPAIR_PATH env) = Ok programKey ->
  accounts m !! publicKey programKey = None ->
  checkProgram env m =
    (Throw (PlainError
       (if existsSync env (PROGRAM_SO_PATH env)
        then "Program needs to be deployed with `solana program deploy dist/program/solana_calculator.so`"
        else "Program needs to be built and deployed")),
     record (EvExistsSync (PROGRAM_SO_PATH env))
       (record (EvGetAccountInfo (publicKey programKey))
          (set_programId (publicKey programKey)
             (record (EvCreateKeypairFromFile (PROGRAM_KEYPAIR_PATH env)) m)))).
Proof.
  intros Hc Hfile Hnone. unfold checkProgram.
  erewrite bind_Ok; cycle 1.
  { apply checkProgram_read. exact Hfile. }
  erewrite bind_Ok; cycle 1.
  { unfold defined. globals. reflexivity. }
  erewrite bind_Ok; cycle 1.
  { apply getAccountInfo_connected with conn. exact Hc. }
  globals. rewrite Hnone.
  erewrite bind_Throw; [reflexivity |].
  erewrite bind_Ok; cycle 1.
  { reflexivity. }
  destruct (existsSync env (PROGRAM_SO_PATH env)); reflexivity.
Qed.

Lemma checkProgram_inert (m : Machine) (conn : Connection) (programKey : Keypair)
    (info : AccountInfo) :
  connection m = Some conn ->
  createKeypairFromFile env (PROGRAM_KEYPAIR_PATH env) = Ok programKey ->
  accounts m !! publicKey programKey = Some info ->
  executable info = false ->
  checkProgram env m =
    (Throw (PlainError "Program is not executable"),
     record (EvGetAccountInfo (publicKey programKey))
       (set_programId (publicKey programKey)
          (record (EvCreateKeypairFromFile (PROGRAM_KEYPAIR_PATH env)) m))).
Proof.
  intros Hc Hfile Hsome Hexec. unfold checkProgram.
  erewrite bind_Ok; cycle 1.
  { apply checkProgram_read. exact Hfile. }
  erewrite bind_Ok; cycle 1.
  { unfold defined. globals. reflexivity. }
  erewrite bind_Ok; cycle 1.
  { apply getAccountInfo_connected with conn. exact Hc. }
  globals. rewrite Hsome.
  erewrite bind_Throw; [reflexivity |].
  rewrite Hexec. reflexivity.
Qed.

Lemma checkProgram_payerless (m : Machine) (conn : Connection) (programKey : Keypair)
    (info : AccountInfo) :
  connection m = Some conn ->
  payer m = None ->
  createKeypairFromFile env (PROGRAM_KEYPAIR_PATH env) = Ok programKey ->
  accounts m !! publicKey programKey = Some info ->
  executable info = true ->
  checkProgram env m =
    (Throw (TypeError "Cannot read properties of undefined: payer"),
     record (program_line (publicKey programKey))
       (record (EvGetAccountInfo (publicKey programKey))
          (set_programId (publicKey programKey)
             (record (EvCreateKeypairFromFile (PROGRAM_KEYPAIR_PATH env)) m)))).
Proof.
  intros Hc Hp Hfile Hsome Hexec. unfold checkProgram.
  erewrite bind_Ok; cycle 1.
  { apply checkProgram_read. exact Hfile. }
  erewrite bind_Ok; cycle 1.
  { unfold defined. globals. reflexivity. }
  erewrite bind_Ok; cycle 1.
  { apply getAccountInfo_connected with conn. exact Hc. }
  globals. rewrite Hsome.
  erewrite bind_Ok; cycle 1.
  { rewrite Hexec. reflexivity. }
  erewrite bind_Ok; cycle 1.
  { reflexivity. }
  erewrite bind_Throw; [reflexivity |].
  unfold defined. globals. rewrite Hp. reflexivity.
Qed.

Lemma creation_accepted (accs accs' : gmap PublicKey AccountInfo)
    (payerKey program derived : PublicKey) :
  process_transaction env [creation env payerKey program derived] accs = Ok accs' ->
  accs !! derived = None /\ is_Some (accs' !! derived).
Proof.
  unfold process_transaction, creation, process_instruction.
  destruct (bool_decide (derived = _)); cbn [negb]; [| discriminate].
  destruct (bool_decide (is_Some (accs !! derived))) eqn:Hused; [discriminate |].
  destruct (bool_decide (balance accs payerKey < _)); [discriminate |].
  intros Hok. injection Hok as <-. split.
  - apply bool_decide_eq_false in Hused. by apply eq_None_not_Some.
  - rewrite lookup_insert_eq. by eexists.
Qed.

(** X9. When the keypair file of the program cannot be read, [checkProgram]
    throws an [Error] whose message quotes the path and the message of the
    cause. It has done nothing else: [programId] is not assigned and the
    cluster has not been asked anything, connected or not. *)
Theorem checkProgram_keypair_unreadable (m : Machine) (e : Error) :
  createKeypairFromFile env (PROGRAM_KEYPAIR_PATH env) = Throw e ->
  checkProgram env m =
    (Throw (PlainError ("Failed to read program keypair at '" +:+ PROGRAM_KEYPAIR_PATH env
                        +:+ "' due to error: " +:+ message e +:+ ".")),
     record (EvCreateKeypairFromFile (PROGRAM_KEYPAIR_PATH env)) m).
Proof. apply checkProgram_unreadable. Qed.

(** X10. The deployment check of [checkProgram] comes first. If the cluster
    has no account at the program's key it throws, telling whether the
    shared object exists and needs deploying or needs building too; if the
    account is not executable it throws "Program is not executable". In
    both cases [programId] is assigned, [calculatorPubKey] is not, and
    nothing is submitted, with or without a payer. *)
Theorem checkProgram_program_not_usable (m : Machine) (conn : Connection)
    (programKey : Keypair) :
  connection m = Some conn ->
  createKeypairFromFile env (PROGRAM_KEYPAIR_PATH env) = Ok programKey ->
  let program := publicKey programKey in
  let looked :=
    record (EvGetAccountInfo program)
      (set_programId program
         (record (EvCreateKeypairFromFile (PROGRAM_KEYPAIR_PATH env)) m)) in
  (accounts m !! program = None ->
     checkProgram env m =
       (Throw (PlainError
          (if existsSync env (PROGRAM_SO_PATH env)
           then "Program needs to be deployed with `solana program deploy dist/program/solana_calculator.so`"
           else "Program needs to be built and deployed")),
        record (EvExistsSync (PROGRAM_SO_PATH env)) looked))
  /\ (forall info,
        accounts m !! program = Some info -> executable info = false ->
        checkProgram env m = (Throw (PlainError "Program is not executable"), looked)).
Proof.
  intros Hc Hfile program looked. split.
  - intros Hnone. by apply (checkProgram_missing m conn programKey).
  - intros info Hsome Hexec. by apply (checkProgram_inert m conn programKey info).
Qed.

(** X11. [checkProgram] needs the payer that [establishPayer] sets: run
    without one, it finds the program deployed, logs it, and then throws a
    [TypeError] on [payer.publicKey], before any address is derived. *)
Theorem checkProgram_without_payer (m : Machine) (conn : Connection) (programKey : Keypair)
    (info : AccountInfo) :
  connection m = Some conn ->
  payer m = None ->
  createKeypairFromFile env (PROGRAM_KEYPAIR_PATH env) = Ok programKey ->
  accounts m !! publicKey programKey = Some info ->
  executable info = true ->
  exists m',
    checkProgram env m = (Throw (TypeError "Cannot read properties of undefined: payer"), m')
    /\ programId m' = Some (publicKey programKey)
    /\ calculatorPubKey m' = calculatorPubKey m
    /\ accounts m' = accounts m
    /\ trace m' = trace m ++ [EvCreateKeypairFromFile (PROGRAM_KEYPAIR_PATH env);
                              EvGetAccountInfo (publicKey programKey);
                              EvLog [Cat (Str "Using program ") (Base58 (publicKey programKey))]].
Proof.
  intros Hc Hp Hfile Hsome Hexec.
  rewrite (checkProgram_payerless m conn programKey info Hc Hp Hfile Hsome Hexec).
  eexists. split; [reflexivity |]. globals.
  repeat (split; [reflexivity |]). by rewrite <- !app_assoc.
Qed.

(** X12. What a successful [checkProgram] leaves behind, from any state: the
    keypair file was readable and a payer was set; [programId] is the
    program's key, [calculatorPubKey] is the address derived from the payer's
    key, the seed "IamTheCalculator" and the program's key, and the cluster
    holds an account at that address. *)
Theorem checkProgram_success (m m' : Machine) :
  checkProgram env m = (Ok tt, m') ->
  exists payerKey programKey,
    createKeypairFromFile env (PROGRAM_KEYPAIR_PATH env) = Ok programKey
    /\ payer m = Some payerKey /\ payer m' = Some payerKey
    /\ connection m' = connection m
    /\ programId m' = Some (publicKey programKey)
    /\ calculatorPubKey m' =
         Some (createWithSeed env (publicKey payerKey) "IamTheCalculator" (publicKey programKey))
    /\ is_Some (accounts m' !! createWithSeed env (publicKey payerKey) "IamTheCalculator"
                                 (publicKey programKey)).
Proof.
  intros Hrun.
  destruct (createKeypairFromFile env (PROGRAM_KEYPAIR_PATH env)) as [programKey|e] eqn:Hfile;
    [| rewrite (checkProgram_unreadable m e Hfile) in Hrun; discriminate Hrun].
  destruct (connection m) as [conn|] eqn:Hc;
    [| rewrite (checkProgram_disconnected m programKey Hc Hfile) in Hrun; discriminate Hrun].
  destruct (accounts m !! publicKey programKey) as [info|] eqn:Hprog;
    [| rewrite (checkProgram_missing m conn programKey Hc Hfile Hprog) in Hrun;
       discriminate Hrun].
  destruct (executable info) eqn:Hexec;
    [| rewrite (checkProgram_inert m conn programKey info Hc Hfile Hprog Hexec) in Hrun;
       discriminate Hrun].
  destruct (payer m) as [payerKey|] eqn:Hp;
    [| rewrite (checkProgram_payerless m conn programKey info Hc Hp Hfile Hprog Hexec) in Hrun;
       discriminate Hrun].
  exists payerKey, programKey. split; [reflexivity |]. split; [reflexivity |].
  change "IamTheCalculator"%string with CALCULATOR_SEED.
  set (derived := createWithSeed env (publicKey payerKey) CALCULATOR_SEED (publicKey programKey)).
  destruct (accounts m !! derived) as [existing|] eqn:Hderived.
  - rewrite (checkProgram_eq env m conn payerKey programKey info Hc Hp Hfile Hprog Hexec) in Hrun.
    fold derived in Hrun. rewrite Hderived in Hrun.
    inversion Hrun; subst m'. unfold after_lookup. globals.
    repeat (split; [first [exact Hp | exact Hc | reflexivity] |]).
    rewrite Hderived. by eexists.
  - rewrite (checkProgram_creates env m conn payerKey programKey info
               Hc Hp Hfile Hprog Hexec Hderived) in Hrun.
    fold derived in Hrun.
    destruct (rejects env _); [discriminate Hrun |].
    destruct (process_transaction env _ (accounts m)) as [accs|] eqn:Hdone;
      [| discriminate Hrun].
    apply creation_accepted in Hdone as [_ Hcreated].
    inversion Hrun; subst m'. unfold after_lookup. globals.
    repeat (split; [first [exact Hp | exact Hc | reflexivity] |]).
    exact Hcreated.
Qed.

(** X13. When the creation is turned down, by the transport or by the
    cluster, [checkProgram] rethrows that error as it is. The accounts are
    untouched; both globals have been assigned already. *)
Theorem checkProgram_creation_refused (m : Machine) (conn : Connection)
    (payerKey programKey : Keypair) (info : AccountInfo) :
  connection m = Some conn ->
  payer m = Some payerKey ->
  createKeypairFromFile env (PROGRAM_KEYPAIR_PATH env) = Ok programKey ->
  accounts m !! publicKey programKey = Some info ->
  executable info = true ->
  let program := publicKey programKey in
  let derived := createWithSeed env (publicKey payerKey) CALCULATOR_SEED program in
  let transaction :=
    [CreateAccountWithSeed (publicKey payerKey) (publicKey payerKey) CALCULATOR_SEED derived
       (getMinimumBalanceForRentExemption env CALCULATOR_SIZE) CALCULATOR_SIZE program] in
  accounts m !! derived = None ->
  forall e,
    (rejects env transaction = true /\ e = ExternalError "failed to send transaction")
    \/ (rejects env transaction = false
        /\ process_transaction env transaction (accounts m) = Throw e) ->
    exists m',
      checkProgram env m = (Throw e, m')
      /\ accounts m' = accounts m
      /\ programId m' = Some program /\ calculatorPubKey m' = Some derived
      /\ submissions (trace m') =
           submissions (trace m) ++ [EvSendAndConfirmTransaction transaction [payerKey]].
Proof.
  intros Hc Hp Hfile Hprog Hexec program derived transaction Hnone e Hfail.
  rewrite (checkProgram_creates env m conn payerKey programKey info
             Hc Hp Hfile Hprog Hexec Hnone).
  fold program. fold derived.
  change [creation env (publicKey payerKey) program derived] with transaction.
  assert (Hsub : forall s : Machine,
    trace s = trace (after_lookup env m program derived) ->
    submissions (trace (record (EvSendAndConfirmTransaction transaction [payerKey])
                          (record (EvGetMinimumBalanceForRentExemption CALCULATOR_SIZE)
                             (record (creating_line derived) s))))
    = submissions (trace m) ++ [EvSendAndConfirmTransaction transaction [payerKey]]).
  { intros s Hs. globals. rewrite Hs. unfold after_lookup. globals.
    rewrite <- !app_assoc. cbn [app]. rewrite submissions_app. reflexivity. }
  destruct Hfail as [[Hrej ->] | [Hrej Hproc]]; rewrite Hrej; [| rewrite Hproc].
  - eexists. split; [reflexivity |]. unfold after_lookup at 1 2 3. globals.
    repeat (split; [reflexivity |]). by apply Hsub.
  - eexists. split; [reflexivity |]. unfold after_lookup at 1 2 3. globals.
    repeat (split; [reflexivity |]). by apply Hsub.
Qed.

End Checking.

Lemma checkProgram_keypair_unreadable_witness :
  checkProgram no_keypair_env blank_machine =
    (Throw (PlainError
       "Failed to read program keypair at '/dist/program/helloworld-keypair.json' due to error: ENOENT."),
     record (EvCreateKeypairFromFile "/dist/program/helloworld-keypair.json") blank_machine).
Proof.
  exact (checkProgram_keypair_unreadable no_keypair_env blank_machine (PlainError "ENOENT")
           eq_refl).
Defined.

Lemma checkProgram_program_not_usable_witness :
  fst (checkProgram sample_env empty_cluster_machine) =
    Throw (PlainError
      "Program needs to be deployed with `solana program deploy dist/program/solana_calculator.so`")
  /\ fst (checkProgram unbuilt_env empty_cluster_machine) =
       Throw (PlainError "Program needs to be built and deployed")
  /\ checkProgram sample_env inert_program_machine =
       (Throw (PlainError "Program is not executable"),
        record (EvGetAccountInfo [2])
          (set_programId [2]
             (record (EvCreateKeypairFromFile "/dist/program/helloworld-keypair.json")
                inert_program_machine))).
Proof.
  split; [| split].
  - rewrite (proj1 (checkProgram_program_not_usable sample_env empty_cluster_machine
                      sample_connection sample_program eq_refl eq_refl) eq_refl).
    reflexivity.
  - rewrite (proj1 (checkProgram_program_not_usable unbuilt_env empty_cluster_machine
                      sample_connection sample_program eq_refl eq_refl) eq_refl).
    reflexivity.
  - exact (proj2 (checkProgram_program_not_usable sample_env inert_program_machine
                    sample_connection sample_program eq_refl eq_refl)
             {| data := []; owner := [3]; lamports := 1; executable := false |}
             eq_refl eq_refl).
Defined.

Lemma checkProgram_without_payer_witness :
  exists m',
    checkProgram sample_env connected_machine
      = (Throw (TypeError "Cannot read properties of undefined: payer"), m')
    /\ programId m' = Some [2]
    /\ calculatorPubKey m' = None
    /\ accounts m' = accounts connected_machine
    /\ trace m' = [EvCreateKeypairFromFile "/dist/program/helloworld-keypair.json";
                   EvGetAccountInfo [2];
                   EvLog [Cat (Str "Using program ") (Base58 [2])]].
Proof.
  exact (checkProgram_without_payer sample_env connected_machine sample_connection
           sample_program sample_program_account eq_refl eq_refl eq_refl eq_refl eq_refl).
Defined.

Lemma checkProgram_success_witness :
  exists payerKey programKey,
    createKeypairFromFile sample_env (PROGRAM_KEYPAIR_PATH sample_env) = Ok programKey
    /\ payer funded_machine = Some payerKey
    /\ payer (snd (checkProgram sample_env funded_machine)) = Some payerKey
    /\ connection (snd (checkProgram sample_env funded_machine)) = connection funded_machine
    /\ programId (snd (checkProgram sample_env funded_machine)) = Some (publicKey programKey)
    /\ calculatorPubKey (snd (checkProgram sample_env funded_machine)) =
         Some (createWithSeed sample_env (publicKey payerKey) "IamTheCalculator"
                 (publicKey programKey))
    /\ is_Some (accounts (snd (checkProgram sample_env funded_machine))
                  !! createWithSeed sample_env (publicKey payerKey) "IamTheCalculator"
                       (publicKey programKey)).
Proof.
  apply (checkProgram_success sample_env funded_machine). reflexivity.
Defined.

Lemma checkProgram_creation_refused_witness :
  (exists m',
     checkProgram rejecting_env funded_machine
       = (Throw (ExternalError "failed to send transaction"), m')
     /\ accounts m' = accounts funded_machine
     /\ programId m' = Some [2] /\ calculatorPubKey m' = Some [1; 16; 2]
     /\ submissions (trace m') =
          [EvSendAndConfirmTransaction
             [CreateAccountWithSeed [1] [1] "IamTheCalculator" [1; 16; 2] 918720 4 [2]]
             [sample_payer]])
  /\ (exists m',
        checkProgram sample_env penniless_machine
          = (Throw (ExternalError "insufficient funds"), m')
        /\ accounts m' = accounts penniless_machine
        /\ programId m' = Some [2] /\ calculatorPubKey m' = Some [1; 16; 2]
        /\ submissions (trace m') =
             [EvSendAndConfirmTransaction
                [CreateAccountWithSeed [1] [1] "IamTheCalculator" [1; 16; 2] 918720 4 [2]]
                [sample_payer]]).
Proof.
  split.
  - refine (checkProgram_creation_refused rejecting_env funded_machine sample_connection
              sample_payer sample_program sample_program_account
              eq_refl eq_refl eq_refl eq_refl eq_refl eq_refl
              (ExternalError "failed to send transaction") _).
    left. split; reflexivity.
  - refine (checkProgram_creation_refused sample_env penniless_machine sample_connection
              sample_payer sample_program sample_program_account
              eq_refl eq_refl eq_refl eq_refl eq_refl eq_refl
              (ExternalError "insufficient funds") _).
    right. split; reflexivity.
Defined.

(** ** [calculate] and [displayResult], case by case *)

Lemma call_known (operation : string) (num1 num2 : Z) :
  operation = "add"%string \/ operation = "sub"%string ->
  call (get_property instructionMap operation) num1 num2 =
    match createInstruction operation num1 num2 with
    | Ok payload => Ok (VBuffer payload)
    | Throw e => Throw e
    end.
Proof. intros [-> | ->]; reflexivity. Qed.

Section Calculating.

Variable env : Env.

Lemma sendAndConfirmTransaction_request (m : Machine) (conn : Connection) (payerKey : Keypair)
    (calculator program : PublicKey) (payload : Buffer.t) :
  connection m = Some conn ->
  let transaction := [request calculator program payload] in
  let sent := record (EvSendAndConfirmTransaction transaction [payerKey]) m in
  sendAndConfirmTransaction env transaction [Some payerKey] m =
    if rejects env transaction then (Throw (ExternalError "failed to send transaction"), sent)
    else
      match invoke env program
              [{| pubkey := calculator; isSigner := false; isWritable := true |}]
              payload (accounts m) with
      | Ok accs => (Ok tt, set_accounts accs sent)
      | Throw e => (Throw e, sent)
      end.
Proof.
  intros Hc transaction sent. unfold sendAndConfirmTransaction.
  erewrite bind_Ok; cycle 1.
  { unfold defined. rewrite Hc. reflexivity. }
  change (mapM id [Some payerKey]) with (Some [payerKey]).
  change (forallb serialisable transaction) with true. cbv iota.
  erewrite bind_Ok; cycle 1.
  { reflexivity. }
  destruct (rejects env transaction); [reflexivity |].
  run_async. globals.
  unfold transaction, request, process_transaction, process_instruction.
  destruct (invoke env program _ payload (accounts m)); reflexivity.
Qed.

Lemma calculate_known (operation : string) (num1 num2 : Z) (m : Machine) (conn : Connection)
    (payerKey : Keypair) (calculator program : PublicKey) (payload : Buffer.t) :
  operation = "add"%string \/ operation = "sub"%string ->
  connection m = Some conn -> payer m = Some payerKey ->
  programId m = Some program -> calculatorPubKey m = Some calculator ->
  createInstruction operation num1 num2 = Ok payload ->
  let transaction := [request calculator program payload] in
  let sent :=
    record (EvSendAndConfirmTransaction transaction [payerKey])
      (record (sending_line calculator) m) in
  calculate env operation num1 num2 m =
    if rejects env transaction then (Throw (ExternalError "failed to send transaction"), sent)
    else
      match invoke env program
              [{| pubkey := calculator; isSigner := false; isWritable := true |}]
              payload (accounts m) with
      | Ok accs => (Ok tt, set_accounts accs sent)
      | Throw e => (Throw e, sent)
      end.
Proof.
  intros Hop Hc Hp Hprog Hk Hdata transaction sent. unfold calculate.
  erewrite bind_Ok; cycle 1.
  { unfold defined. rewrite Hk. reflexivity. }
  erewrite bind_Ok; cycle 1.
  { reflexivity. }
  erewrite bind_Ok; cycle 1.
  { unfold lift. rewrite (call_known operation num1 num2 Hop), Hdata. reflexivity. }
  erewrite bind_Ok; cycle 1.
  { unfold defined. globals. rewrite Hprog. reflexivity. }
  erewrite bind_Ok; cycle 1.
  { unfold gets. globals. rewrite Hp. reflexivity. }
  change (new_TransactionInstruction _ program (VBuffer payload))
    with (request calculator program payload).
  exact (sendAndConfirmTransaction_request (record (sending_line calculator) m) conn payerKey
           calculator program payload Hc).
Qed.

(** X14. In an established session, [calculate] with "add" or "sub" and
    operands in range logs its line and makes one submission: a transaction
    of one instruction whose only key is the calculator account, writable
    and not a signer, under the program id, carrying the nine bytes of
    [createInstruction], signed by the payer. A refusal and an error of the
    program are rethrown as they are; otherwise the accounts are what the
    program left. *)
Theorem calculate_known_operation (operation : string) (num1 num2 : Z) (m : Machine)
    (conn : Connection) (payerKey : Keypair) (calculator program : PublicKey) :
  operation = "add"%string \/ operation = "sub"%string ->
  0 <= num1 < 2 ^ 32 -> 0 <= num2 < 2 ^ 32 ->
  connection m = Some conn -> payer m = Some payerKey ->
  programId m = Some program -> calculatorPubKey m = Some calculator ->
  exists payload,
    createInstruction operation num1 num2 = Ok payload
    /\ length payload = 9%nat
    /\ let key := {| pubkey := calculator; isSigner := false; isWritable := true |} in
       let transaction := [TransactionInstruction [key] program (VBuffer payload)] in
       let sent :=
         record (EvSendAndConfirmTransaction transaction [payerKey])
           (record (EvLog [Str "Sending calculate request to"; Base58 calculator]) m) in
       calculate env operation num1 num2 m =
         if rejects env transaction
         then (Throw (ExternalError "failed to send transaction"), sent)
         else
           match invoke env program [key] payload (accounts m) with
           | Ok accs => (Ok tt, set_accounts accs sent)
           | Throw e => (Throw e, sent)
           end.
Proof.
  intros Hop H1 H2 Hc Hp Hprog Hk.
  exists (opcode operation :: Buffer.le_bytes 4 num1 ++ Buffer.le_bytes 4 num2).
  split; [by apply createInstruction_bytes |].
  split; [cbn [length]; rewrite length_app, !le_bytes_length; reflexivity |].
  apply (calculate_known operation num1 num2 m conn payerKey calculator program);
    auto using createInstruction_bytes.
Qed.

(** X25. Every other unlisted operation is stopped before the cluster is
    involved. For a name that is not a key of [instructionMap], and is not
    "isPrototypeOf", [calculate] throws a [TypeError] whatever the operands
    and whatever has been established, with its first line logged and
    nothing else done: nothing is submitted, no account changes. For a name
    that [Object.prototype] does not define either, such as "mul", the
    error is that of calling a value that is not a function. *)
Theorem calculate_unlisted_operation (operation : string) (num1 num2 : Z) (m : Machine)
    (calculator : PublicKey) :
  calculatorPubKey m = Some calculator ->
  instructionMap !! operation = None ->
  operation <> "isPrototypeOf"%string ->
  (exists msg,
     calculate env operation num1 num2 m =
       (Throw (TypeError msg),
        record (EvLog [Str "Sending calculate request to"; Base58 calculator]) m))
  /\ (operation ∉ Object_prototype_functions ->
      calculate env operation num1 num2 m =
        (Throw (TypeError "instructionHandler is not a function"),
         record (EvLog [Str "Sending calculate request to"; Base58 calculator]) m)).
Proof.
  intros Hk Hown Hne.
  assert (E : String.eqb operation "isPrototypeOf" = false) by (by apply String.eqb_neq).
  destruct m as [c p pid ck accs tr]. cbn in Hk. subst ck.
  unfold calculate, get_property. rewrite Hown.
  split.
  - destruct (bool_decide (operation ∈ Object_prototype_functions)).
    + unfold call. rewrite E.
      destruct (String.eqb operation "constructor");
        [| destruct (String.eqb operation "toString")].
      3: { eexists. reflexivity. }
      all: destruct pid as [program |]; [| eexists; reflexivity].
      all: destruct c as [conn |]; [| eexists; reflexivity].
      all: destruct p as [payerKey |]; eexists; reflexivity.
    + destruct (String.eqb operation "__proto__"); eexists; reflexivity.
  - intros Hproto. rewrite bool_decide_eq_false_2 by done.
    destruct (String.eqb operation "__proto__"); reflexivity.
Qed.

(** X15. [calculate] stops early in two cases. Called before
    [checkProgram] has derived the address, it throws a [TypeError] with
    nothing logged, whatever the operation. Called with "add" or "sub" and
    an integer operand outside [0, 2^32), it logs its line and throws the
    [RangeError] of the encoder. Nothing is submitted in either case. *)
Theorem calculate_stops_early (operation : string) (num1 num2 : Z) (m : Machine) :
  (calculatorPubKey m = None ->
     calculate env operation num1 num2 m =
       (Throw (TypeError "Cannot read properties of undefined: calculatorPubKey"), m))
  /\ (forall calculator,
        calculatorPubKey m = Some calculator ->
        operation = "add"%string \/ operation = "sub"%string ->
        ~ (0 <= num1 < 2 ^ 32 /\ 0 <= num2 < 2 ^ 32) ->
        calculate env operation num1 num2 m =
          (Throw (RangeError "ERR_OUT_OF_RANGE"),
           record (EvLog [Str "Sending calculate request to"; Base58 calculator]) m)).
Proof.
  split.
  - intros Hk. unfold calculate.
    erewrite bind_Throw; [reflexivity |].
    unfold defined. rewrite Hk. reflexivity.
  - intros calculator Hk Hop Hout. unfold calculate.
    erewrite bind_Ok; cycle 1.
    { unfold defined. rewrite Hk. reflexivity. }
    erewrite bind_Ok; cycle 1.
    { reflexivity. }
    erewrite bind_Throw; [reflexivity |].
    unfold lift. rewrite (call_known operation num1 num2 Hop).
    rewrite (createInstruction_out_of_range_eq operation num1 num2 Hout). reflexivity.
Qed.

(** X16. [displayResult] does not check the operation either: for every
    name other than "add" it behaves exactly as for "sub", printing "-". *)
Theorem displayResult_other_operation (operation : string) (num1 num2 : Z) (m : Machine) :
  operation <> "add"%string ->
  displayResult operation num1 num2 m = displayResult "sub" num1 num2 m.
Proof.
  intros Hne. unfold displayResult, result_line.
  destruct (String.eqb_spec operation "add") as [->|_]; [by destruct Hne | reflexivity].
Qed.

(** X17. A new account displays 0. When [checkProgram] has to create the
    calculator account and the creation goes through, [displayResult] run
    right after it succeeds, and the last thing done is its line: the first
    operand, "+" for "add" and "-" for any other operation, the second
    operand, " = " and the result 0. *)
Theorem new_account_displays_zero (operation : string) (num1 num2 : Z) (m : Machine)
    (conn : Connection) (payerKey programKey : Keypair) (info : AccountInfo) :
  connection m = Some conn ->
  payer m = Some payerKey ->
  createKeypairFromFile env (PROGRAM_KEYPAIR_PATH env) = Ok programKey ->
  accounts m !! publicKey programKey = Some info ->
  executable info = true ->
  let program := publicKey programKey in
  let derived := createWithSeed env (publicKey payerKey) CALCULATOR_SEED program in
  let transaction :=
    [CreateAccountWithSeed (publicKey payerKey) (publicKey payerKey) CALCULATOR_SEED derived
       (getMinimumBalanceForRentExemption env CALCULATOR_SIZE) CALCULATOR_SIZE program] in
  accounts m !! derived = None ->
  rejects env transaction = false ->
  getMinimumBalanceForRentExemption env CALCULATOR_SIZE
    <= balance (accounts m) (publicKey payerKey) ->
  let printed (sign : string) :=
    EvLog [Cat (Num num1) (Cat (Str " ") (Cat (Str sign) (Cat (Str " ")
             (Cat (Num num2) (Cat (Str " = ") (Num 0))))))] in
  exists m',
    bind (checkProgram env) (fun _ => displayResult operation num1 num2) m = (Ok tt, m')
    /\ (operation = "add"%string -> last (trace m') = Some (printed "+"%string))
    /\ (operation <> "add"%string -> last (trace m') = Some (printed "-"%string)).
Proof.
  intros Hc Hp Hfile Hprog Hexec program derived transaction Hnone Hsend Hfunds printed.
  pose proof (checkProgram_creates env m conn payerKey programKey info
                Hc Hp Hfile Hprog Hexec Hnone) as Hfirst.
  fold program in Hfirst. fold derived in Hfirst.
  change [creation env (publicKey payerKey) program derived] with transaction in Hfirst.
  rewrite Hsend in Hfirst.
  pose proof (creation_processed env (accounts m) (publicKey payerKey) program Hnone Hfunds)
    as Hdone.
  fold derived in Hdone.
  change [creation env (publicKey payerKey) program derived] with transaction in Hdone.
  rewrite Hdone in Hfirst.
  erewrite bind_Ok by exact Hfirst.
  erewrite displayResult_eq; [| exact Hc | reflexivity].
  unfold after_lookup. globals. rewrite lookup_insert_eq. cbn [data].
  rewrite decodeState_zero_filled.
  eexists. split; [reflexivity |]. globals. rewrite last_snoc.
  unfold printed, result_line. cbn [result].
  destruct (String.eqb_spec operation "add"); split; intros H; congruence.
Qed.

(** X18. [displayResult] after [calculate] shows what the program left. In
    an established session, when the submission of a valid request goes
    through, [displayResult] decodes the calculator account as the program
    left it, and the last thing done is its line: the first operand, "+" for
    "add" and "-" for "sub", the second operand, " = " and the decoded
    result. *)
Theorem calculate_then_displayResult (operation : string) (num1 num2 : Z) (m : Machine)
    (conn : Connection) (payerKey : Keypair) (calculator program : PublicKey)
    (payload : Buffer.t) (accs : gmap PublicKey AccountInfo) (info : AccountInfo)
    (state : Calculator) :
  operation = "add"%string \/ operation = "sub"%string ->
  connection m = Some conn -> payer m = Some payerKey ->
  programId m = Some program -> calculatorPubKey m = Some calculator ->
  createInstruction operation num1 num2 = Ok payload ->
  rejects env [TransactionInstruction
                 [{| pubkey := calculator; isSigner := false; isWritable := true |}]
                 program (VBuffer payload)] = false ->
  invoke env program [{| pubkey := calculator; isSigner := false; isWritable := true |}]
    payload (accounts m) = Ok accs ->
  accs !! calculator = Some info ->
  decodeState (data info) = Ok state ->
  let printed (sign : string) :=
    EvLog [Cat (Num num1) (Cat (Str " ") (Cat (Str sign) (Cat (Str " ")
             (Cat (Num num2) (Cat (Str " = ") (Num (result state)))))))] in
  exists m',
    bind (calculate env operation num1 num2) (fun _ => displayResult operation num1 num2) m
      = (Ok tt, m')
    /\ accounts m' = accs
    /\ (operation = "add"%string -> last (trace m') = Some (printed "+"%string))
    /\ (operation = "sub"%string -> last (trace m') = Some (printed "-"%string)).
Proof.
  intros Hop Hc Hp Hprog Hk Hdata Hsend Hrun Hinfo Hstate printed.
  pose proof (calculate_known operation num1 num2 m conn payerKey calculator program payload
                Hop Hc Hp Hprog Hk Hdata) as Hfirst.
  cbv zeta in Hfirst. unfold request in Hfirst. rewrite Hsend, Hrun in Hfirst.
  erewrite bind_Ok by exact Hfirst.
  erewrite displayResult_eq; [| exact Hc | exact Hk].
  globals. rewrite Hinfo, Hstate.
  eexists. split; [reflexivity |]. globals. split; [reflexivity |].
  rewrite last_snoc. unfold printed, result_line.
  split; intros ->; reflexivity.
Qed.

End Calculating.

Lemma calculate_known_operation_witness :
  exists payload,
    createInstruction "add" 7 5 = Ok payload
    /\ length payload = 9%nat
    /\ let key := {| pubkey := [1; 16; 2]; isSigner := false; isWritable := true |} in
       let transaction := [TransactionInstruction [key] [2] (VBuffer payload)] in
       let sent :=
         record (EvSendAndConfirmTransaction transaction [sample_payer])
           (record (EvLog [Str "Sending calculate request to"; Base58 [1; 16; 2]])
              (ready_machine [0; 0; 0; 0])) in
       calculate sample_env "add" 7 5 (ready_machine [0; 0; 0; 0]) =
         if rejects sample_env transaction
         then (Throw (ExternalError "failed to send transaction"), sent)
         else
           match invoke sample_env [2] [key] payload (accounts (ready_machine [0; 0; 0; 0])) with
           | Ok accs => (Ok tt, set_accounts accs sent)
           | Throw e => (Throw e, sent)
           end.
Proof.
  apply (calculate_known_operation sample_env "add" 7 5 (ready_machine [0; 0; 0; 0])
           sample_connection sample_payer [1; 16; 2] [2]);
    first [lia | reflexivity | left; reflexivity].
Defined.

Lemma calculate_unlisted_operation_witness :
  (exists msg,
     calculate sample_env "toString" 1 1 (ready_machine [0; 0; 0; 0]) =
       (Throw (TypeError msg),
        record (EvLog [Str "Sending calculate request to"; Base58 [1; 16; 2]])
          (ready_machine [0; 0; 0; 0])))
  /\ calculate sample_env "mul" 1 1 (ready_machine [0; 0; 0; 0]) =
       (Throw (TypeError "instructionHandler is not a function"),
        record (EvLog [Str "Sending calculate request to"; Base58 [1; 16; 2]])
          (ready_machine [0; 0; 0; 0])).
Proof.
  split.
  - apply (calculate_unlisted_operation sample_env "toString" 1 1 (ready_machine [0; 0; 0; 0])
             [1; 16; 2]); [reflexivity | reflexivity | discriminate].
  - apply (calculate_unlisted_operation sample_env "mul" 1 1 (ready_machine [0; 0; 0; 0])
             [1; 16; 2]); [reflexivity | reflexivity | discriminate |].
    unfold Object_prototype_functions. rewrite !elem_of_cons, elem_of_nil.
    intros H. repeat (destruct H as [H|H]; [discriminate H |]). exact H.
Defined.

Lemma calculate_stops_early_witness :
  calculate sample_env "add" 7 5 funded_machine =
    (Throw (TypeError "Cannot read properties of undefined: calculatorPubKey"), funded_machine)
  /\ calculate sample_env "sub" 4294967296 0 (ready_machine [0; 0; 0; 0]) =
       (Throw (RangeError "ERR_OUT_OF_RANGE"),
        record (EvLog [Str "Sending calculate request to"; Base58 [1; 16; 2]])
          (ready_machine [0; 0; 0; 0])).
Proof.
  split.
  - exact (proj1 (calculate_stops_early sample_env "add" 7 5 funded_machine) eq_refl).
  - refine (proj2 (calculate_stops_early sample_env "sub" 4294967296 0
                     (ready_machine [0; 0; 0; 0])) [1; 16; 2] eq_refl _ _).
    + right. reflexivity.
    + lia.
Defined.

Lemma displayResult_other_operation_witness :
  displayResult "mul" 7 5 (ready_machine [12; 0; 0; 0])
  = displayResult "sub" 7 5 (ready_machine [12; 0; 0; 0]).
Proof.
  apply (displayResult_other_operation "mul" 7 5 (ready_machine [12; 0; 0; 0])).
  discriminate.
Defined.

Lemma new_account_displays_zero_witness :
  exists m',
    bind (checkProgram sample_env) (fun _ => displayResult "add" 7 5) funded_machine
      = (Ok tt, m')
    /\ ("add"%string = "add"%string ->
        last (trace m') =
          Some (EvLog [Cat (Num 7) (Cat (Str " ") (Cat (Str "+") (Cat (Str " ")
                         (Cat (Num 5) (Cat (Str " = ") (Num 0))))))]))
    /\ ("add"%string <> "add"%string ->
        last (trace m') =
          Some (EvLog [Cat (Num 7) (Cat (Str " ") (Cat (Str "-") (Cat (Str " ")
                         (Cat (Num 5) (Cat (Str " = ") (Num 0))))))])).
Proof.
  refine (new_account_displays_zero sample_env "add" 7 5 funded_machine sample_connection
            sample_payer sample_program sample_program_account
            eq_refl eq_refl eq_refl eq_refl eq_refl eq_refl eq_refl _).
  vm_compute. discriminate.
Defined.

Lemma calculate_then_displayResult_witness :
  exists m',
    bind (calculate sample_env "add" 7 5) (fun _ => displayResult "add" 7 5)
      (ready_machine [0; 0; 0; 0]) = (Ok tt, m')
    /\ accounts m' = accounts (ready_machine [12; 0; 0; 0])
    /\ ("add"%string = "add"%string ->
        last (trace m') =
          Some (EvLog [Cat (Num 7) (Cat (Str " ") (Cat (Str "+") (Cat (Str " ")
                         (Cat (Num 5) (Cat (Str " = ") (Num 12))))))]))
    /\ ("add"%string = "sub"%string ->
        last (trace m') =
          Some (EvLog [Cat (Num 7) (Cat (Str " ") (Cat (Str "-") (Cat (Str " ")
                         (Cat (Num 5) (Cat (Str " = ") (Num 12))))))])).
Proof.
  refine (calculate_then_displayResult sample_env "add" 7 5 (ready_machine [0; 0; 0; 0])
            sample_connection sample_payer [1; 16; 2] [2] [0; 7; 0; 0; 0; 5; 0; 0; 0]
            (accounts (ready_machine [12; 0; 0; 0]))
            {| data := [12; 0; 0; 0]; owner := [2]; lamports := 918720; executable := false |}
            {| result := 12 |} _ eq_refl eq_refl eq_refl eq_refl _ eq_refl _ _ _).
  - left. reflexivity.
  - vm_compute. reflexivity.
  - vm_compute. reflexivity.
  - reflexivity.
  - reflexivity.
Defined.

(** ** Without a connection *)

Section Disconnected.

Variable env : Env.

Lemma sendAndConfirmTransaction_disconnected (transaction : Transaction)
    (signers : list (option Keypair)) (m : Machine) :
  connection m = None ->
  sendAndConfirmTransaction env transaction signers m =
    (Throw (TypeError "Cannot read properties of undefined: connection"), m).
Proof.
  intros Hc. unfold sendAndConfirmTransaction.
  erewrite bind_Throw; [reflexivity |].
  unfold defined. rewrite Hc. reflexivity.
Qed.

(** X24. The four later functions need [establishConnection] first. With
    the connection unset, [establishPayer] and [displayResult] throw a
    [TypeError] at once and leave the state as it is; [checkProgram] and
    [calculate] throw as well, whatever else holds, and nothing is
    submitted. *)
Theorem connection_required (operation : string) (num1 num2 : Z) (m : Machine) :
  connection m = None ->
  establishPayer env m =
    (Throw (TypeError "Cannot read properties of undefined: connection"), m)
  /\ displayResult operation num1 num2 m =
       (Throw (TypeError "Cannot read properties of undefined: connection"), m)
  /\ (exists e m',
        checkProgram env m = (Throw e, m')
        /\ accounts m' = accounts m /\ submissions (trace m') = submissions (trace m))
  /\ (exists e m',
        calculate env operation num1 num2 m = (Throw e, m')
        /\ accounts m' = accounts m /\ submissions (trace m') = submissions (trace m)).
Proof.
  intros Hc. split; [| split; [| split]].
  - exact (establishPayer_disconnected env m Hc).
  - unfold displayResult. erewrite bind_Throw; [reflexivity |].
    unfold defined. rewrite Hc. reflexivity.
  - destruct (createKeypairFromFile env (PROGRAM_KEYPAIR_PATH env)) as [programKey|e] eqn:Hfile.
    + rewrite (checkProgram_disconnected env m programKey Hc Hfile).
      do 2 eexists. split; [reflexivity |]. globals. split; [reflexivity |].
      rewrite submissions_app. cbn. by rewrite app_nil_r.
    + rewrite (checkProgram_unreadable env m e Hfile).
      do 2 eexists. split; [reflexivity |]. globals. split; [reflexivity |].
      rewrite submissions_app. cbn. by rewrite app_nil_r.
  - unfold calculate.
    destruct (calculatorPubKey m) as [calculator|] eqn:Hk; cycle 1.
    { erewrite bind_Throw; cycle 1.
      { unfold defined. rewrite Hk. reflexivity. }
      do 2 eexists. split; [reflexivity |]. split; reflexivity. }
    erewrite bind_Ok; cycle 1.
    { unfold defined. rewrite Hk. reflexivity. }
    erewrite bind_Ok; cycle 1.
    { reflexivity. }
    assert (Hlogged : submissions (trace (record (sending_line calculator) m))
                      = submissions (trace m)).
    { globals. rewrite submissions_app. cbn. by rewrite app_nil_r. }
    destruct (call (get_property instructionMap operation) num1 num2) as [value|e] eqn:Hcall;
      cycle 1.
    { erewrite bind_Throw; cycle 1.
      { reflexivity. }
      do 2 eexists. split; [reflexivity |]. split; [reflexivity | exact Hlogged]. }
    erewrite bind_Ok; cycle 1.
    { reflexivity. }
    destruct (programId m) as [program|] eqn:Hprog; cycle 1.
    { erewrite bind_Throw; cycle 1.
      { unfold defined. globals. rewrite Hprog. reflexivity. }
      do 2 eexists. split; [reflexivity |]. split; [reflexivity | exact Hlogged]. }
    erewrite bind_Ok; cycle 1.
    { unfold defined. globals. rewrite Hprog. reflexivity. }
    erewrite bind_Ok; cycle 1.
    { reflexivity. }
    rewrite sendAndConfirmTransaction_disconnected by exact Hc.
    do 2 eexists. split; [reflexivity |]. split; [reflexivity | exact Hlogged].
Qed.

End Disconnected.

Lemma connection_required_witness :
  establishPayer sample_env blank_machine =
    (Throw (TypeError "Cannot read properties of undefined: connection"), blank_machine)
  /\ displayResult "add" 7 5 blank_machine =
       (Throw (TypeError "Cannot read properties of undefined: connection"), blank_machine)
  /\ (exists e m',
        checkProgram sample_env blank_machine = (Throw e, m')
        /\ accounts m' = accounts blank_machine
        /\ submissions (trace m') = submissions (trace blank_machine))
  /\ (exists e m',
        calculate sample_env "add" 7 5 blank_machine = (Throw e, m')
        /\ accounts m' = accounts blank_machine
        /\ submissions (trace m') = submissions (trace blank_machine)).
Proof.
  apply (connection_required sample_env "add" 7 5 blank_machine). reflexivity.
Defined.

(** ** What each function leaves alone *)

Section Frames.

Variable env : Env.

(** X19. [displayResult] only reads: from any state and whatever its
    outcome, the four globals and the accounts are what they were, and
    nothing it does asks the cluster for a change. *)
Theorem displayResult_read_only (operation : string) (num1 num2 : Z) (m : Machine) :
  let m' := snd (displayResult operation num1 num2 m) in
  same_globals m m' /\ accounts m' = accounts m
  /\ extends (fun e => changes_cluster e = false) m m'.
Proof.
  split; [| split]; revert m.
  - change (keeps same_globals (displayResult operation num1 num2)).
    unfold displayResult. keeps_all.
  - change (keeps (same_on accounts) (displayResult operation num1 num2)).
    unfold displayResult. keeps_all.
  - change (keeps (extends (fun e => changes_cluster e = false))
              (displayResult operation num1 num2)).
    unfold displayResult. keeps_all.
Qed.

(** X20. [calculate] never assigns a global, does nothing towards the
    outside but log and submit, and makes at most one submission, from any
    state, for any operation name and operands. *)
Theorem calculate_frame (operation : string) (num1 num2 : Z) (m : Machine) :
  let m' := snd (calculate env operation num1 num2 m) in
  same_globals m m'
  /\ extends (fun e => match e with
                       | EvLog _ | EvSendAndConfirmTransaction _ _ => True
                       | _ => False
                       end) m m'
  /\ exists sent,
       submissions (trace m') = submissions (trace m) ++ sent /\ (length sent <= 1)%nat.
Proof.
  split; [| split]; revert m.
  - change (keeps same_globals (calculate env operation num1 num2)).
    unfold calculate. keeps_all.
  - change (keeps (extends (fun e => match e with
                                      | EvLog _ | EvSendAndConfirmTransaction _ _ => True
                                      | _ => False
                                      end)) (calculate env operation num1 num2)).
    unfold calculate. keeps_all.
  - change (submits_at_most 1 (calculate env operation num1 num2)).
    unfold calculate. submits_auto.
Qed.

(** X21. [establishPayer] touches the payer and the payer's balance only:
    from any state the connection, [programId] and [calculatorPubKey] are
    what they were, and it never submits a transaction. *)
Theorem establishPayer_frame (m : Machine) :
  let m' := snd (establishPayer env m) in
  connection m' = connection m /\ programId m' = programId m
  /\ calculatorPubKey m' = calculatorPubKey m
  /\ submissions (trace m') = submissions (trace m).
Proof.
  repeat split; revert m.
  - change (keeps (same_on connection) (establishPayer env)).
    unfold establishPayer. keeps_all.
  - change (keeps (same_on programId) (establishPayer env)).
    unfold establishPayer. keeps_all.
  - change (keeps (same_on calculatorPubKey) (establishPayer env)).
    unfold establishPayer. keeps_all.
  - intros m.
    assert (Hs : submits_at_most 0 (establishPayer env)).
    { apply submits_silent. unfold establishPayer. keeps_all. }
    destruct (Hs m) as (sent & Hsent & Hlen).
    destruct sent; [| simpl in Hlen; lia]. by rewrite app_nil_r in Hsent.
Qed.

(** X22. [checkProgram] never changes the connection or the payer, never
    requests an airdrop, and makes at most one submission, from any state. *)
Theorem checkProgram_frame (m : Machine) :
  let m' := snd (checkProgram env m) in
  connection m' = connection m /\ payer m' = payer m
  /\ extends (fun e => match e with EvRequestAirdrop _ _ => False | _ => True end) m m'
  /\ exists sent,
       submissions (trace m') = submissions (trace m) ++ sent /\ (length sent <= 1)%nat.
Proof.
  repeat split; revert m.
  - change (keeps (same_on connection) (checkProgram env)).
    unfold checkProgram. keeps_all.
  - change (keeps (same_on payer) (checkProgram env)).
    unfold checkProgram. keeps_all.
  - change (keeps (extends (fun e => match e with EvRequestAirdrop _ _ => False | _ => True end))
              (checkProgram env)).
    unfold checkProgram. keeps_all.
  - change (submits_at_most 1 (checkProgram env)).
    unfold checkProgram. submits_auto.
Qed.

(** X23. [establishConnection] changes the connection and nothing else:
    payer, [programId], [calculatorPubKey] and the accounts are what they
    were, and nothing it does asks the cluster for a change. *)
Theorem establishConnection_frame (m : Machine) :
  let m' := snd (establishConnection env m) in
  payer m' = payer m /\ programId m' = programId m
  /\ calculatorPubKey m' = calculatorPubKey m /\ accounts m' = accounts m
  /\ extends (fun e => changes_cluster e = false) m m'.
Proof.
  repeat split; revert m.
  - change (keeps (same_on payer) (establishConnection env)).
    unfold establishConnection. keeps_all.
  - change (keeps (same_on programId) (establishConnection env)).
    unfold establishConnection. keeps_all.
  - change (keeps (same_on calculatorPubKey) (establishConnection env)).
    unfold establishConnection. keeps_all.
  - change (keeps (same_on accounts) (establishConnection env)).
    unfold establishConnection. keeps_all.
  - change (keeps (extends (fun e => changes_cluster e = false)) (establishConnection env)).
    unfold establishConnection. keeps_all.
Qed.

End Frames.
